(** * The prescription service of [main.py], embedded and verified

    The service is three HTTP handlers around a relational store and one
    remote text-generation endpoint.  This development embeds

    - [generate_ai_response]  (main.py, lines 21-46),
    - [get_connection]        (lines 59-68),
    - [submit_patient]        (the /submit handler, lines 89-132),
    - [chatbot_query]         (the /chatbot handler, lines 134-183),

    as functions in a state-and-exception monad.  The store, the remote
    endpoint and the faults of either are an explicit [World]; the parts of
    the Python runtime that the source relies on but that are irrelevant to
    its control flow ([repr] of floats and of strings, the store's coercing
    comparison of a bound parameter with an integer key) are parameters.

    What is taken for granted: one request runs at a time; the store keeps
    what was committed and hands out identifiers from a counter; an
    [HTTPException] prints as Starlette prints it; integers are unbounded.
    Request validation by the framework (the 422 answers) happens before
    the handlers and is not part of them. *)

From Stdlib Require Import ZArith NArith List String Ascii Bool Lia.
From Stdlib Require Import DecimalString.
From Stdlib Require Import Floats.SpecFloat.
Import ListNotations.

Set Warnings "-register-all".
Open Scope Z_scope.

(* ================================================================== *)
(** * Python strings *)
(* ================================================================== *)

(** A Python [str] is a sequence of Unicode code points. *)
Definition str := list N.

(** An ASCII literal of the source, as a [str]. *)
Definition lit (s : string) : str := map N_of_ascii (list_ascii_of_string s).

Definition nl : str := [10%N].

Fixpoint str_eqb (a b : str) : bool :=
  match a, b with
  | [], [] => true
  | x :: a', y :: b' => N.eqb x y && str_eqb a' b'
  | _, _ => false
  end.

(** [s.startswith(p)]. *)
Fixpoint starts_with (p s : str) : bool :=
  match p, s with
  | [], _ => true
  | x :: p', y :: s' => N.eqb x y && starts_with p' s'
  | _ :: _, [] => false
  end.

(** [sub in s] for two strings: [sub] occurs in [s] at some position. *)
Fixpoint occurs (sub s : str) : bool :=
  starts_with sub s ||
  match s with
  | [] => false
  | _ :: s' => occurs sub s'
  end.

(** [sep.join(l)]. *)
Fixpoint join (sep : str) (l : list str) : str :=
  match l with
  | [] => []
  | [x] => x
  | x :: l' => x ++ sep ++ join sep l'
  end.

(** [s.split(sep)] for a non-empty [sep] (Python raises ValueError on an
    empty one; the only separator of the source is a non-empty literal).
    The scan goes left to right; [skip] counts the characters of a matched
    separator still to be passed over, [cur] holds the current piece,
    reversed. *)
Fixpoint split_from (sep : str) (skip : nat) (cur : str) (s : str) : list str :=
  match s with
  | [] => [rev cur]
  | c :: s' =>
      match skip with
      | S k => split_from sep k cur s'
      | O =>
          if starts_with sep s
          then rev cur :: split_from sep (Nat.pred (List.length sep)) [] s'
          else split_from sep O (c :: cur) s'
      end
  end.

Definition split (sep s : str) : list str := split_from sep O [] s.

(** [l[-1]] on the result of [split], which is never empty. *)
Definition last_piece (l : list str) : str := last l [].

(** The code points for which [str.isspace] holds; these are what
    [str.strip()] without argument removes. *)
Definition py_isspace (c : N) : bool :=
  ((9 <=? c) && (c <=? 13) || (28 <=? c) && (c <=? 32)
   || (c =? 133) || (c =? 160) || (c =? 5760)
   || (8192 <=? c) && (c <=? 8202)
   || (c =? 8232) || (c =? 8233) || (c =? 8239) || (c =? 8287)
   || (c =? 12288))%N.

Fixpoint lstrip (s : str) : str :=
  match s with
  | [] => []
  | c :: s' => if py_isspace c then lstrip s' else s
  end.

(** [s.strip()]. *)
Definition strip (s : str) : str := rev (lstrip (rev (lstrip s))).

(** [str(n)] for an [int]. *)
Definition str_of_int (n : Z) : str := lit (NilZero.string_of_int (Z.to_int n)).

(* ================================================================== *)
(** * JSON values, as [response.json()] and FastAPI's [Body] produce them *)
(* ================================================================== *)

(** A [float] is kept as its IEEE-754 value; the handlers only test it for
    zero and print it. *)
Definition float := spec_float.

(** A [dict] keeps its keys in insertion order, each key once. *)
Inductive json :=
| JNull
| JBool (b : bool)
| JInt (n : Z)
| JFloat (f : float)
| JStr (s : str)
| JList (l : list json)
| JDict (d : list (str * json)).

(** Python's [x == y] where [y] is a [str]. *)
Definition eq_str (x : json) (s : str) : bool :=
  match x with
  | JStr t => str_eqb t s
  | _ => false
  end.

(** [d.get(k)] on the bindings of a dict: the bound value, if any. *)
Fixpoint lookup (k : str) (d : list (str * json)) : option json :=
  match d with
  | [] => None
  | (k', v) :: d' => if str_eqb k' k then Some v else lookup k d'
  end.

(** [payload.get(k)]: a missing key reads as [None]. *)
Definition dict_get (d : list (str * json)) (k : str) : json :=
  match lookup k d with
  | Some v => v
  | None => JNull
  end.

(** Python truthiness, the meaning of [not v] and of [if v]. *)
Definition truthy (v : json) : bool :=
  match v with
  | JNull => false
  | JBool b => b
  | JInt n => negb (n =? 0)
  | JFloat (S754_zero _) => false
  | JFloat _ => true
  | JStr s => negb (str_eqb s [])
  | JList l => match l with [] => false | _ => true end
  | JDict d => match d with [] => false | _ => true end
  end.

Definition is_list (v : json) : bool :=
  match v with JList _ => true | _ => false end.

Definition is_dict (v : json) : bool :=
  match v with JDict _ => true | _ => false end.

(** [type(v).__name__], as it appears in the interpreter's messages. *)
Definition type_name (v : json) : str :=
  match v with
  | JNull => lit "NoneType"
  | JBool _ => lit "bool"
  | JInt _ => lit "int"
  | JFloat _ => lit "float"
  | JStr _ => lit "str"
  | JList _ => lit "list"
  | JDict _ => lit "dict"
  end.

(* ================================================================== *)
(** * Exceptions and the two monads *)
(* ================================================================== *)

(** The subclasses of [Exception] that can reach the handlers.  The texts
    of the interpreter's own errors are CPython's; nothing below depends on
    their wording. *)
Inductive exn :=
| RuntimeError (msg : str)
| HTTPException (status_code : Z) (detail : str)
| IndexError (msg : str)
| KeyError (msg : str)
| TypeError (msg : str)
| AttributeError (msg : str)
| MySQLError (msg : str)       (* mysql.connector.Error and its subclasses *)
| OtherException (msg : str).  (* any other Exception raised by a library *)

(** [str(e)].  Starlette's HTTPException prints as "status: detail". *)
Definition str_exn (e : exn) : str :=
  match e with
  | HTTPException c d => str_of_int c ++ lit ": " ++ d
  | RuntimeError m | IndexError m | KeyError m | TypeError m
  | AttributeError m | MySQLError m | OtherException m => m
  end.

Inductive outcome (A : Type) :=
| Return (a : A)
| Raise (e : exn).
Arguments Return {A} a.
Arguments Raise {A} e.

Class Monad (m : Type -> Type) := {
  ret : forall {A}, A -> m A;
  bind : forall {A B}, m A -> (A -> m B) -> m B
}.

Notation "x <- c1 ;; c2" := (bind c1 (fun x => c2))
  (at level 61, c1 at next level, right associativity).
Notation "c1 ;; c2" := (bind c1 (fun _ => c2))
  (at level 61, right associativity).

#[export] Instance outcome_monad : Monad outcome := {
  ret := fun A a => Return a;
  bind := fun A B c k =>
    match c with
    | Return a => k a
    | Raise e => Raise e
    end
}.

(* ================================================================== *)
(** * The store, the connection and the world outside *)
(* ================================================================== *)

(** [class PatientInput(BaseModel)]. *)
Record PatientInput := {
  name : str;
  age : Z;
  weight : float;
  height : float;
  allergies : str;
  medical_history : str;
  symptoms : str
}.

(** A row of [patients]: the identifier the store assigned and the seven
    columns of the INSERT, which are the seven fields of the payload. *)
Record PatientRow := {
  p_id : Z;
  p_data : PatientInput
}.

(** A row of [prescriptions]. *)
Record PrescriptionRow := {
  r_id : Z;
  r_patient_id : option Z;
  ai_summary : str;
  treatment_options : str;
  medication_recommendations : str
}.

(** What the dictionary cursor of [chatbot_query] yields for the SELECT. *)
Record JoinedRow := {
  row_name : str;
  row_age : Z;
  row_allergies : str;
  row_medical_history : str;
  row_symptoms : str;
  row_ai_summary : str;
  row_treatment_options : str;
  row_medication_recommendations : str
}.

(** The committed contents of the two tables and their AUTO_INCREMENT
    counters. *)
Record Store := {
  patients : list PatientRow;
  prescriptions : list PrescriptionRow;
  next_patient_id : Z;
  next_prescription_id : Z
}.

(** An open connection with its cursor: the rows written and not yet
    committed, [cursor.lastrowid], and the rows of the last SELECT not yet
    fetched. *)
Record Conn := {
  new_patients : list PatientRow;
  new_prescriptions : list PrescriptionRow;
  lastrowid : option Z;
  resultset : list JoinedRow
}.

Definition fresh_conn : Conn :=
  {| new_patients := []; new_prescriptions := []; lastrowid := None;
     resultset := [] |}.

(** The three statements of the source. *)
Inductive Stmt :=
| InsertPatientSql (data : PatientInput)
| InsertPrescriptionSql (patient_id : option Z) (summary treatment medication : str)
| SelectJoinedSql (patient_id : json).

(** Every call that leaves the process, in the order it was made. *)
Inductive Event :=
| EvConnect
| EvCursor
| EvExecute (s : Stmt)
| EvCommit
| EvFetchone
| EvCursorClose
| EvClose
| EvPost (prompt : str).

(** The store calls of the two handlers that may raise. *)
Inductive DbStep :=
| OpenCursor
| InsertPatient
| CommitPatient
| InsertPrescription
| CommitPrescription
| SelectJoined
| FetchOne
| CloseCursor.

(** What one request meets outside the process: whether connecting fails,
    which store call fails, and what [requests.post(...).json()] gives for a
    prompt (an exception, or the decoded body). *)
Record World := {
  connect_error : option exn;
  db_fault : DbStep -> option exn;
  http_post : str -> exn + json
}.

Record State := {
  store : Store;
  conn : option Conn;
  trace : list Event
}.

(** A request starts on the committed store with no connection open. *)
Definition init (db : Store) : State :=
  {| store := db; conn := None; trace := [] |}.

Definition M (A : Type) : Type := State -> outcome A * State.

#[export] Instance M_monad : Monad M := {
  ret := fun A a st => (Return a, st);
  bind := fun A B c k st =>
    match c st with
    | (Return a, st') => k a st'
    | (Raise e, st') => (Raise e, st')
    end
}.

Definition raise {A} (e : exn) : M A := fun st => (Raise e, st).

Definition lift {A} (o : outcome A) : M A := fun st => (o, st).

(** [try: body except Exception as e: handler(e)].  What [body] did to the
    state before raising stays done. *)
Definition try_except {A} (body : M A) (handler : exn -> M A) : M A :=
  fun st =>
    match body st with
    | (Return a, st') => (Return a, st')
    | (Raise e, st') => handler e st'
    end.

Definition log (ev : Event) (st : State) : State :=
  {| store := store st; conn := conn st; trace := trace st ++ [ev] |}.

(* ================================================================== *)
(** * Error kinds *)
(* ================================================================== *)

(** The three failures that [generate_ai_response] raises itself.  The
    source raises all three as [RuntimeError]; they are told apart by the
    message each raise site builds. *)
Inductive ErrorKind :=
| TransportError
| ModelError
| UnexpectedResponseShape.

Definition error_kind (e : exn) : option ErrorKind :=
  match e with
  | RuntimeError m =>
      if starts_with (lit "Failed to contact Hugging Face API: ") m
      then Some TransportError
      else if starts_with (lit "Model error: ") m
      then Some ModelError
      else if str_eqb m (lit "Unexpected API response format.")
      then Some UnexpectedResponseShape
      else None
  | _ => None
  end.

(** A separator no proper suffix of which is a prefix of it: two of its
    occurrences never overlap. *)
Definition borderless (sep : str) : bool :=
  forallb (fun d => negb (starts_with (skipn d sep) sep))
          (seq 1 (Nat.pred (List.length sep))).

(** The store's counters are above every key in use, so that the next
    identifier handed out is fresh. *)
Definition keys_below_counters (db : Store) : Prop :=
  (forall p, In p (patients db) -> p_id p < next_patient_id db) /\
  (forall r k, In r (prescriptions db) -> r_patient_id r = Some k ->
               k < next_patient_id db).

(* ================================================================== *)
(** * Sample requests and worlds *)
(* ================================================================== *)

Module Sample.

(** A printing of floats to run the samples with: Python's on zeros,
    infinities and NaN; no sample prints a finite non-zero float. *)
Definition repr_float (f : float) : str :=
  match f with
  | S754_zero false => lit "0.0"
  | S754_zero true => lit "-0.0"
  | S754_infinity false => lit "inf"
  | S754_infinity true => lit "-inf"
  | S754_nan => lit "nan"
  | S754_finite _ _ _ => lit "1.0"
  end.

(** A printing of strings to run the samples with: Python's on the sample
    strings, which need no escaping. *)
Definition repr_str (s : str) : str := lit "'" ++ s ++ lit "'".

(** Key comparison on integers, the only parameters the samples bind. *)
Definition key_eq (v : json) (id : Z) : bool :=
  match v with
  | JInt n => n =? id
  | _ => false
  end.

Definition empty_db : Store :=
  {| patients := []; prescriptions := [];
     next_patient_id := 1; next_prescription_id := 1 |}.

Definition ann : PatientInput :=
  {| name := lit "Ann"; age := 41;
     weight := S754_zero false; height := S754_zero false;
     allergies := lit "none"; medical_history := lit "asthma";
     symptoms := lit "cough" |}.

(** Same four prompt fields as [ann], another name. *)
Definition bea : PatientInput :=
  {| name := lit "Bea"; age := 41;
     weight := S754_infinity false; height := S754_zero false;
     allergies := lit "none"; medical_history := lit "asthma";
     symptoms := lit "cough" |}.

(** The store after [ann] was taken in and answered with "RESPONSE". *)
Definition ann_db : Store :=
  {| patients := [{| p_id := 1; p_data := ann |}];
     prescriptions :=
       [{| r_id := 1; r_patient_id := Some 1; ai_summary := lit "RESPONSE";
           treatment_options := lit "RESPONSE";
           medication_recommendations := lit "RESPONSE" |}];
     next_patient_id := 2; next_prescription_id := 2 |}.

(** A world in which nothing fails and the endpoint answers [body]. *)
Definition answering (body : json) : World :=
  {| connect_error := None;
     db_fault := fun _ => None;
     http_post := fun _ => inr body |}.

(** The body of a successful generation. *)
Definition generated (text : string) : json :=
  JList [JDict [(lit "generated_text", JStr (lit text))]].

(** The body the endpoint sends when it reports an error. *)
Definition overloaded : json :=
  JDict [(lit "error", JStr (lit "Model is overloaded"))].

(** A world in which the SELECT fails. *)
Definition select_fails : World :=
  {| connect_error := None;
     db_fault := fun s =>
                   match s with
                   | SelectJoined => Some (MySQLError (lit "Lost connection"))
                   | _ => None
                   end;
     http_post := fun _ => inr (generated "fine") |}.

(** A world in which the second INSERT fails. *)
Definition insert_fails : World :=
  {| connect_error := None;
     db_fault := fun s =>
                   match s with
                   | InsertPrescription => Some (MySQLError (lit "Data too long"))
                   | _ => None
                   end;
     http_post := fun _ => inr (generated "fine") |}.

(** A /chatbot payload with both fields. *)
Definition ask (id : Z) : list (str * json) :=
  [(lit "patient_id", JInt id); (lit "message", JStr (lit "hi"))].

End Sample.

(* ================================================================== *)
(** * The store probe and further samples *)
(* ================================================================== *)

(** What /test-db meets beyond the [World]: whether its statement
    [SELECT DATABASE();] fails, and the row [fetchone()] yields for it (a
    one-column tuple holding the name of the current database, or NULL). *)
Record Probe := {
  select_database_fault : option exn;
  database_row : option (list json)
}.

(** While a text is split: the piece being read, [cur] reversed, holds no
    start of the separator so far, [s] being what is still to be read. *)
Definition clear_so_far (sep cur s : str) : Prop :=
  forall a b, rev cur = a ++ b -> b <> [] -> starts_with sep (b ++ s) = false.

(** Every prescription that names a patient names one that is there. *)
Definition references_resolve (db : Store) : Prop :=
  forall r k, In r (prescriptions db) -> r_patient_id r = Some k ->
              exists p, In p (patients db) /\ p_id p = k.

Module MoreSamples.

(** A world whose endpoint cannot be reached. *)
Definition offline : World :=
  {| connect_error := None;
     db_fault := fun _ => None;
     http_post := fun _ => inl (OtherException (lit "Connection refused")) |}.

(** A world whose store cannot be reached. *)
Definition store_down : World :=
  {| connect_error := Some (MySQLError (lit "Access denied"));
     db_fault := fun _ => None;
     http_post := fun _ => inr (Sample.generated "fine") |}.

(** A world in which closing the cursor fails. *)
Definition close_fails : World :=
  {| connect_error := None;
     db_fault := fun s =>
                   match s with
                   | CloseCursor => Some (MySQLError (lit "Unread result found"))
                   | _ => None
                   end;
     http_post := fun _ => inr (Sample.generated "fine") |}.

(** The probe of a healthy store whose database is "prescription". *)
Definition named : Probe :=
  {| select_database_fault := None;
     database_row := Some [JStr (lit "prescription")] |}.

(** A body whose generated text is not a string. *)
Definition null_text : json :=
  JList [JDict [(lit "generated_text", JNull)]].

(** An error object inside a list. *)
Definition listed_error : json :=
  JList [JDict [(lit "error", JStr (lit "Model is overloaded"))]].

End MoreSamples.

(* ================================================================== *)
(** * The service *)
(* ================================================================== *)

Section Service.

(** Python's [repr] of a float and of a string, as they appear when a list
    or a dict is printed. *)
Variable repr_float : float -> str.
Variable repr_str : str -> str.

(** The store's comparison [p.id = %s] of a bound parameter, whatever its
    type, with an integer key. *)
Variable sql_key_eq : json -> Z -> bool.

(** ** Printing and probing JSON values *)

Fixpoint py_repr (v : json) : str :=
  match v with
  | JNull => lit "None"
  | JBool true => lit "True"
  | JBool false => lit "False"
  | JInt n => str_of_int n
  | JFloat f => repr_float f
  | JStr s => repr_str s
  | JList l => lit "[" ++ join (lit ", ") (map py_repr l) ++ lit "]"
  | JDict d =>
      lit "{"
      ++ join (lit ", ")
           (map (fun kv => match kv with
                           | (k, x) => repr_str k ++ lit ": " ++ py_repr x
                           end) d)
      ++ lit "}"
  end.

(** [str(v)], which is what an f-string field prints. *)
Definition py_str (v : json) : str :=
  match v with
  | JStr s => s
  | _ => py_repr v
  end.

(** [k in x] for a string [k]. *)
Definition contains (k : str) (x : json) : outcome bool :=
  match x with
  | JDict d => Return (match lookup k d with Some _ => true | None => false end)
  | JList l => Return (existsb (fun y => eq_str y k) l)
  | JStr s => Return (occurs k s)
  | _ => Raise (TypeError (lit "argument of type '" ++ type_name x
                           ++ lit "' is not iterable"))
  end.

(** [x[0]]. *)
Definition first_item (x : json) : outcome json :=
  match x with
  | JList (y :: _) => Return y
  | JList [] => Raise (IndexError (lit "list index out of range"))
  | JStr (c :: _) => Return (JStr [c])
  | JStr [] => Raise (IndexError (lit "string index out of range"))
  | JDict _ => Raise (KeyError (lit "0"))
  | _ => Raise (TypeError (lit "'" ++ type_name x
                           ++ lit "' object is not subscriptable"))
  end.

(** [x[k]] for a string [k]. *)
Definition item (x : json) (k : str) : outcome json :=
  match x with
  | JDict d => match lookup k d with
               | Some v => Return v
               | None => Raise (KeyError (repr_str k))
               end
  | JList _ => Raise (TypeError
                        (lit "list indices must be integers or slices, not str"))
  | JStr _ => Raise (TypeError (lit "string indices must be integers, not 'str'"))
  | _ => Raise (TypeError (lit "'" ++ type_name x
                           ++ lit "' object is not subscriptable"))
  end.

(** [v.split(sep)[-1].strip()]: only a [str] has [split]. *)
Definition after_marker (sep : str) (v : json) : outcome str :=
  match v with
  | JStr s => Return (strip (last_piece (split sep s)))
  | _ => Raise (AttributeError (lit "'" ++ type_name v
                                ++ lit "' object has no attribute 'split'"))
  end.

(** ** The inference client (lines 21-46) *)

(** Lines 41-46: the three-way branch on the decoded body.  [and] is
    short-circuit: the second operand is evaluated only after the first
    held. *)
Definition response_text (result : json) : outcome str :=
  is_generated <-
    (if is_list result
     then first <- first_item result ;; contains (lit "generated_text") first
     else Return false) ;;
  if is_generated : bool then
    first <- first_item result ;;
    text <- item first (lit "generated_text") ;;
    after_marker (lit "Assistant:") text
  else
    is_error <-
      (if is_dict result then contains (lit "error") result else Return false) ;;
    if is_error : bool then
      err <- item result (lit "error") ;;
      Raise (RuntimeError (lit "Model error: " ++ py_str err))
    else
      Raise (RuntimeError (lit "Unexpected API response format.")).

(** Lines 36-37: [requests.post(...)] followed by [response.json()]. *)
Definition post_json (w : World) (prompt : str) : M json :=
  fun st =>
    (match http_post w prompt with
     | inl e => Raise e
     | inr result => Return result
     end, log (EvPost prompt) st).

Definition generate_ai_response (w : World) (prompt : str) : M str :=
  result <-
    try_except (post_json w prompt)
      (fun e => raise (RuntimeError
                         (lit "Failed to contact Hugging Face API: " ++ str_exn e))) ;;
  lift (response_text result).

(** ** The store calls *)

(** [mysql.connector.connect(...)]. *)
Definition mysql_connect (w : World) : M unit :=
  fun st =>
    match connect_error w with
    | Some e => (Raise e, log EvConnect st)
    | None =>
        (Return tt,
         {| store := store st; conn := Some fresh_conn;
            trace := trace st ++ [EvConnect] |})
    end.

(** Lines 59-68: only [mysql.connector.Error] is rewrapped. *)
Definition get_connection (w : World) : M unit :=
  fun st =>
    match mysql_connect w st with
    | (Raise (MySQLError m), st') =>
        (Raise (HTTPException 500 (lit "Database connection failed: " ++ m)), st')
    | r => r
    end.

(** A call on the open connection: it is recorded, then it fails if the
    world says so, else it acts on the store and the connection. *)
Definition db_call {A} (w : World) (step : DbStep) (ev : Event)
    (act : Store -> Conn -> A * Store * Conn) : M A :=
  fun st =>
    match conn st with
    | None =>
        (Raise (MySQLError (lit "MySQL Connection not available.")), log ev st)
    | Some c =>
        match db_fault w step with
        | Some e => (Raise e, log ev st)
        | None =>
            let '(a, db', c') := act (store st) c in
            (Return a,
             {| store := db'; conn := Some c'; trace := trace st ++ [ev] |})
        end
    end.

Definition join_row (p : PatientRow) (r : PrescriptionRow) : JoinedRow :=
  {| row_name := name (p_data p);
     row_age := age (p_data p);
     row_allergies := allergies (p_data p);
     row_medical_history := medical_history (p_data p);
     row_symptoms := symptoms (p_data p);
     row_ai_summary := ai_summary r;
     row_treatment_options := treatment_options r;
     row_medication_recommendations := medication_recommendations r |}.

Definition references (id : Z) (r : PrescriptionRow) : bool :=
  match r_patient_id r with
  | Some k => k =? id
  | None => false
  end.

(** [FROM patients p JOIN prescriptions r ON p.id = r.patient_id
     WHERE p.id = %s]. *)
Definition select_joined (db : Store) (patient_id : json) : list JoinedRow :=
  flat_map
    (fun p =>
       if sql_key_eq patient_id (p_id p)
       then map (join_row p) (filter (references (p_id p)) (prescriptions db))
       else [])
    (patients db).

Definition run_stmt (s : Stmt) (db : Store) (c : Conn) : unit * Store * Conn :=
  match s with
  | InsertPatientSql data =>
      let id := next_patient_id db in
      (tt,
       {| patients := patients db; prescriptions := prescriptions db;
          next_patient_id := id + 1;
          next_prescription_id := next_prescription_id db |},
       {| new_patients := new_patients c ++ [{| p_id := id; p_data := data |}];
          new_prescriptions := new_prescriptions c;
          lastrowid := Some id;
          resultset := resultset c |})
  | InsertPrescriptionSql pid summary treatment medication =>
      let id := next_prescription_id db in
      (tt,
       {| patients := patients db; prescriptions := prescriptions db;
          next_patient_id := next_patient_id db;
          next_prescription_id := id + 1 |},
       {| new_patients := new_patients c;
          new_prescriptions :=
            new_prescriptions c
            ++ [{| r_id := id; r_patient_id := pid; ai_summary := summary;
                   treatment_options := treatment;
                   medication_recommendations := medication |}];
          lastrowid := Some id;
          resultset := resultset c |})
  | SelectJoinedSql pid =>
      (tt, db,
       {| new_patients := new_patients c;
          new_prescriptions := new_prescriptions c;
          lastrowid := lastrowid c;
          resultset := select_joined db pid |})
  end.

(** [conn.cursor()]. *)
Definition cursor (w : World) : M unit :=
  db_call w OpenCursor EvCursor (fun db c => (tt, db, c)).

(** [cursor.execute(sql, params)]. *)
Definition execute (w : World) (step : DbStep) (s : Stmt) : M unit :=
  db_call w step (EvExecute s) (run_stmt s).

(** [conn.commit()]: the rows written on the connection become rows of the
    tables. *)
Definition commit (w : World) (step : DbStep) : M unit :=
  db_call w step EvCommit
    (fun db c =>
       (tt,
        {| patients := patients db ++ new_patients c;
           prescriptions := prescriptions db ++ new_prescriptions c;
           next_patient_id := next_patient_id db;
           next_prescription_id := next_prescription_id db |},
        {| new_patients := []; new_prescriptions := [];
           lastrowid := lastrowid c; resultset := resultset c |})).

(** [cursor.lastrowid]. *)
Definition cursor_lastrowid : M (option Z) :=
  fun st =>
    (Return (match conn st with
             | Some c => lastrowid c
             | None => None
             end), st).

(** [cursor.fetchone()]: the next row, or [None]. *)
Definition fetchone (w : World) : M (option JoinedRow) :=
  db_call w FetchOne EvFetchone
    (fun db c =>
       (hd_error (resultset c), db,
        {| new_patients := new_patients c;
           new_prescriptions := new_prescriptions c;
           lastrowid := lastrowid c;
           resultset := tl (resultset c) |})).

(** [cursor.close()]. *)
Definition cursor_close (w : World) : M unit :=
  db_call w CloseCursor EvCursorClose (fun db c => (tt, db, c)).

(** [conn.close()]: the connection is released; what it had not committed
    is gone with it. *)
Definition conn_close : M unit :=
  fun st =>
    (Return tt,
     {| store := store st; conn := None; trace := trace st ++ [EvClose] |}).

(** ** The prompts (lines 104-113 and 162-178) *)

Definition intake_prompt (data : PatientInput) : str :=
  nl ++ lit "Patient is a " ++ str_of_int (age data)
     ++ lit "-year-old with symptoms: " ++ symptoms data ++ lit "."
  ++ nl ++ lit "Medical history: " ++ medical_history data ++ lit "."
  ++ nl ++ lit "Allergies: " ++ allergies data ++ lit "."
  ++ nl
  ++ nl ++ lit "Generate:"
  ++ nl ++ lit "1. A summary of the patient's condition"
  ++ nl ++ lit "2. Possible treatment options"
  ++ nl ++ lit "3. Recommended medications"
  ++ nl.

Definition consult_prompt (row : JoinedRow) (user_message : json) : str :=
  nl ++ lit "You are an AI medical assistant. A doctor is reviewing a case with the following patient data:"
  ++ nl
  ++ nl ++ lit "Patient Name: " ++ row_name row
  ++ nl ++ lit "Age: " ++ str_of_int (row_age row)
  ++ nl ++ lit "Symptoms: " ++ row_symptoms row
  ++ nl ++ lit "Medical History: " ++ row_medical_history row
  ++ nl ++ lit "Allergies: " ++ row_allergies row
  ++ nl
  ++ nl ++ lit "AI-Generated Summary: " ++ row_ai_summary row
  ++ nl ++ lit "AI Treatment Options: " ++ row_treatment_options row
  ++ nl ++ lit "AI Medication Recommendations: "
        ++ row_medication_recommendations row
  ++ nl
  ++ nl ++ lit "The doctor asks: " ++ py_str user_message
  ++ nl
  ++ nl ++ lit "Respond clearly and concisely as if advising a medical team."
  ++ nl.

(** ** The handlers *)

Definition json_of_id (id : option Z) : json :=
  match id with
  | Some n => JInt n
  | None => JNull
  end.

(** /submit, lines 89-132. *)
Definition submit_patient (w : World) (data : PatientInput) : M json :=
  try_except
    (get_connection w ;;
     cursor w ;;
     execute w InsertPatient (InsertPatientSql data) ;;
     commit w CommitPatient ;;
     patient_id <- cursor_lastrowid ;;
     let prompt := intake_prompt data in
     ai_output <- generate_ai_response w prompt ;;
     execute w InsertPrescription
       (InsertPrescriptionSql patient_id ai_output ai_output ai_output) ;;
     commit w CommitPrescription ;;
     cursor_close w ;;
     conn_close ;;
     ret (JDict [(lit "message",
                  JStr (lit "Patient and AI-powered prescription saved."));
                 (lit "patient_id", json_of_id patient_id)]))
    (fun e => raise (HTTPException 500 (str_exn e))).

(** The answer of /chatbot to a request it refuses (line 140). *)
Definition missing_field : exn :=
  HTTPException 400 (lit "Both 'patient_id' and 'message' are required.").

(** /chatbot, lines 134-183. *)
Definition chatbot_query (w : World) (payload : list (str * json)) : M json :=
  let patient_id := dict_get payload (lit "patient_id") in
  let user_message := dict_get payload (lit "message") in
  if negb (truthy patient_id) || negb (truthy user_message) then
    raise missing_field
  else
    try_except
      (get_connection w ;;
       cursor w ;;
       execute w SelectJoined (SelectJoinedSql patient_id) ;;
       row <- fetchone w ;;
       cursor_close w ;;
       conn_close ;;
       match row with
       | None => raise (HTTPException 404 (lit "Patient not found."))
       | Some row =>
           let prompt := consult_prompt row user_message in
           reply <- generate_ai_response w prompt ;;
           ret (JDict [(lit "reply", JStr (strip reply))])
       end)
      (fun e => raise (HTTPException 500 (str_exn e))).

(** ** What the client sees *)

(** FastAPI answers a returned value with 200, an [HTTPException] with its
    status code, anything else with 500. *)
Definition status_of (o : outcome json) : Z :=
  match o with
  | Return _ => 200
  | Raise (HTTPException c _) => c
  | Raise _ => 500
  end.

(** ** Observations on a run *)

(** The prompts sent to the remote endpoint. *)
Fixpoint posts (t : list Event) : list str :=
  match t with
  | [] => []
  | EvPost p :: t' => p :: posts t'
  | _ :: t' => posts t'
  end.

(** The lookups sent to the store. *)
Fixpoint lookups (t : list Event) : list json :=
  match t with
  | [] => []
  | EvExecute (SelectJoinedSql k) :: t' => k :: lookups t'
  | _ :: t' => lookups t'
  end.

(** The outcome of the remote call alone, without the state. *)
Definition model_outcome (w : World) (prompt : str) : outcome str :=
  match http_post w prompt with
  | inl e =>
      Raise (RuntimeError
               (lit "Failed to contact Hugging Face API: " ++ str_exn e))
  | inr result => response_text result
  end.


(** ** The store probe (/test-db, lines 76-87) *)

(** [cursor.execute("SELECT DATABASE();")].  [Event] lists the statements
    of the two handlers; this one is not among them and leaves no event. *)
Definition execute_select_database (pr : Probe) : M unit :=
  fun st =>
    match conn st with
    | None => (Raise (MySQLError (lit "MySQL Connection not available.")), st)
    | Some _ =>
        match select_database_fault pr with
        | Some e => (Raise e, st)
        | None => (Return tt, st)
        end
    end.

(** [cursor.fetchone()] after that statement. *)
Definition fetch_database_row (w : World) (pr : Probe)
    : M (option (list json)) :=
  db_call w FetchOne EvFetchone (fun db c => (database_row pr, db, c)).

(** [row[0]] on what [fetchone()] gave: a tuple, or [None]. *)
Definition first_column (row : option (list json)) : outcome json :=
  match row with
  | Some (v :: _) => Return v
  | Some [] => Raise (IndexError (lit "tuple index out of range"))
  | None => Raise (TypeError (lit "'NoneType' object is not subscriptable"))
  end.

(** /test-db, lines 76-87.  The handler returns in its [except] clause. *)
Definition test_db (w : World) (pr : Probe) : M json :=
  try_except
    (get_connection w ;;
     cursor w ;;
     execute_select_database pr ;;
     row <- fetch_database_row w pr ;;
     db_name <- lift (first_column row) ;;
     cursor_close w ;;
     conn_close ;;
     ret (JDict [(lit "message",
                  JStr (lit "Connected to database: " ++ py_str db_name))]))
    (fun e => ret (JDict [(lit "error", JStr (str_exn e))])).

(* ================================================================== *)
(** * Properties of the string operations *)
(* ================================================================== *)

Lemma str_eqb_eq (a b : str) : str_eqb a b = true <-> a = b.
Proof.
  revert b; induction a as [|x a IH]; intros [|y b]; simpl;
    try (split; [discriminate | congruence]); try tauto.
  rewrite andb_true_iff, N.eqb_eq, IH.
  split; [intros [-> ->]; reflexivity | intros [= -> ->]; auto].
Qed.

Lemma starts_with_app (p r : str) : starts_with p (p ++ r) = true.
Proof.
  induction p as [|x p IH]; simpl; [reflexivity|].
  now rewrite N.eqb_refl, IH.
Qed.

Lemma starts_with_inv (p s : str) :
  starts_with p s = true -> exists r, s = p ++ r.
Proof.
  revert s; induction p as [|x p IH]; intros s H.
  - now exists s.
  - destruct s as [|y s]; simpl in H; [discriminate|].
    apply andb_true_iff in H as [Hxy Hp].
    apply N.eqb_eq in Hxy; subst y.
    destruct (IH _ Hp) as [r ->]. now exists r.
Qed.

(** A prefix of [b ++ c] no longer than [b] is a prefix of [b]. *)
Lemma starts_with_short (a b c : str) :
  starts_with a (b ++ c) = true -> (List.length a <= List.length b)%nat ->
  starts_with a b = true.
Proof.
  revert b; induction a as [|x a IH]; intros b H L; [reflexivity|].
  destruct b as [|y b]; simpl in L; [lia|].
  simpl in *. apply andb_true_iff in H as [-> H]. simpl.
  apply IH; [exact H | lia].
Qed.

(** A prefix of [b ++ c] at least as long as [b] continues into [c]. *)
Lemma starts_with_long (a b c : str) :
  starts_with a (b ++ c) = true -> (List.length b <= List.length a)%nat ->
  starts_with (skipn (List.length b) a) c = true.
Proof.
  revert a; induction b as [|y b IH]; intros a H L; [exact H|].
  destruct a as [|x a]; simpl in L; [lia|].
  simpl in *. apply andb_true_iff in H as [_ H].
  apply IH; [exact H | lia].
Qed.

Lemma borderless_spec (sep : str) (d : nat) :
  borderless sep = true -> (0 < d < List.length sep)%nat ->
  starts_with (skipn d sep) sep = false.
Proof.
  unfold borderless. rewrite forallb_forall. intros H Hd.
  apply negb_true_iff, H, in_seq. lia.
Qed.

(** An occurrence of a borderless separator that starts inside [p], in a
    text where [p] is followed by the separator, lies wholly inside [p]. *)
Lemma occurrence_within (sep p r : str) :
  borderless sep = true -> p <> [] ->
  starts_with sep (p ++ sep ++ r) = true ->
  exists p2, p = sep ++ p2.
Proof.
  intros B Hp H.
  destruct (le_lt_dec (List.length sep) (List.length p)) as [L|L].
  - apply starts_with_inv. eapply starts_with_short; eauto.
  - exfalso.
    assert (Hd : (0 < List.length p < List.length sep)%nat).
    { destruct p; [congruence | simpl in *; lia]. }
    pose proof (borderless_spec sep _ B Hd) as F.
    apply starts_with_long in H; [|lia].
    apply starts_with_short in H; [congruence|].
    rewrite length_skipn. lia.
Qed.

Lemma split_from_nonempty (sep : str) (s : str) :
  forall skip cur, split_from sep skip cur s <> [].
Proof.
  induction s as [|c s IH]; intros skip cur; simpl; [discriminate|].
  destruct skip; [|apply IH].
  destruct (starts_with sep (c :: s)); [discriminate | apply IH].
Qed.

Lemma last_piece_cons (x : str) (l : list str) :
  l <> [] -> last_piece (x :: l) = last_piece l.
Proof. destruct l; [congruence | reflexivity]. Qed.

(** Passing over the rest of a matched separator. *)
Lemma split_from_skip_eq (sep a r cur : str) :
  split_from sep (List.length a) cur (a ++ r) = split_from sep O cur r.
Proof.
  induction a as [|x a IH]; simpl; [reflexivity | exact IH].
Qed.

(** A text without the separator is one piece. *)
Lemma split_from_absent (sep s : str) :
  occurs sep s = false -> forall cur, split_from sep O cur s = [rev cur ++ s].
Proof.
  induction s as [|c s IH]; intros H cur.
  - simpl. now rewrite app_nil_r.
  - simpl in H. apply orb_false_iff in H as [H1 H2].
    cbn [split_from]. rewrite H1, (IH H2). simpl.
    now rewrite <- app_assoc.
Qed.

Lemma split_absent (sep s : str) :
  occurs sep s = false -> split sep s = [s].
Proof. intros H. unfold split. now rewrite split_from_absent. Qed.

(** The first occurrence of the separator ends the first piece. *)
Lemma split_from_match (sep r cur : str) :
  sep <> [] ->
  split_from sep O cur (sep ++ r) = rev cur :: split_from sep O [] r.
Proof.
  intros Hs. destruct sep as [|c sep']; [congruence|].
  change ((c :: sep') ++ r) with (c :: (sep' ++ r)).
  cbn [split_from].
  change (c :: sep' ++ r) with ((c :: sep') ++ r).
  rewrite starts_with_app. cbn [List.length Nat.pred].
  now rewrite split_from_skip_eq.
Qed.

(** What follows the last occurrence of a borderless separator is the last
    piece. *)
Lemma last_piece_after_marker (sep r : str) :
  borderless sep = true -> sep <> [] -> occurs sep r = false ->
  forall n p cur, (List.length p <= n)%nat ->
    last_piece (split_from sep O cur (p ++ sep ++ r)) = r.
Proof.
  intros B Hs Hr. induction n as [|n IH]; intros p cur L.
  - destruct p; [|simpl in L; lia]. simpl app.
    rewrite split_from_match by assumption.
    rewrite split_from_absent by assumption. reflexivity.
  - destruct p as [|c p].
    + simpl app. rewrite split_from_match by assumption.
      rewrite split_from_absent by assumption. reflexivity.
    + destruct (starts_with sep ((c :: p) ++ sep ++ r)) eqn:E.
      * destruct (occurrence_within sep (c :: p) r B ltac:(discriminate) E)
          as [p2 Hp2].
        rewrite Hp2, <- app_assoc. rewrite split_from_match by assumption.
        rewrite last_piece_cons by apply split_from_nonempty.
        apply IH.
        apply (f_equal (@List.length N)) in Hp2.
        rewrite length_app in Hp2. simpl in Hp2, L.
        destruct sep; [congruence | simpl in Hp2; lia].
      * change ((c :: p) ++ sep ++ r) with (c :: (p ++ sep ++ r)) in *.
        cbn [split_from]. rewrite E. apply IH. simpl in L. lia.
Qed.

(** [lstrip] stops at the first character that is not white space. *)
Lemma lstrip_head (s : str) :
  match lstrip s with
  | [] => True
  | c :: _ => py_isspace c = false
  end.
Proof.
  induction s as [|c s IH]; simpl; [exact I|].
  destruct (py_isspace c) eqn:E; [exact IH | exact E].
Qed.

(** [lstrip] removes a prefix. *)
Lemma lstrip_suffix (s : str) : exists x, s = x ++ lstrip s.
Proof.
  induction s as [|c s [x IH]]; [now exists []|].
  simpl. destruct (py_isspace c).
  - exists (c :: x). simpl. now rewrite <- IH.
  - now exists [].
Qed.

(** [strip] leaves no white space at either end. *)
Lemma strip_trimmed (s : str) :
  match strip s with
  | [] => True
  | c :: _ => py_isspace c = false
  end
  /\ match rev (strip s) with
     | [] => True
     | c :: _ => py_isspace c = false
     end.
Proof.
  unfold strip. split.
  - destruct (lstrip_suffix (rev (lstrip s))) as [x Hx].
    apply (f_equal (@rev N)) in Hx. rewrite rev_involutive, rev_app_distr in Hx.
    pose proof (lstrip_head s) as Hh. rewrite Hx in Hh.
    destruct (rev (lstrip (rev (lstrip s)))); [exact I | exact Hh].
  - rewrite rev_involutive. apply lstrip_head.
Qed.

(* ================================================================== *)
(** * The inference client *)
(* ================================================================== *)

Arguments lit : simpl never.
Arguments strip : simpl never.
Arguments split : simpl never.
Arguments str_of_int : simpl never.
Arguments str_exn : simpl never.
Arguments py_str : simpl never.
Arguments intake_prompt : simpl never.
Arguments consult_prompt : simpl never.

(** The client makes exactly one remote call, and its outcome depends on
    the world and the prompt only. *)
Lemma generate_ai_response_run (w : World) (prompt : str) (st : State) :
  generate_ai_response w prompt st
  = (model_outcome w prompt, log (EvPost prompt) st).
Proof.
  unfold generate_ai_response, model_outcome, post_json, try_except, lift,
    raise. cbn [bind M_monad].
  destruct (http_post w prompt); reflexivity.
Qed.

Lemma response_text_generated (d : list (str * json)) (rest : list json)
    (s : str) :
  lookup (lit "generated_text") d = Some (JStr s) ->
  response_text (JList (JDict d :: rest))
  = Return (strip (last_piece (split (lit "Assistant:") s))).
Proof.
  intros H. unfold response_text. cbn. rewrite H. reflexivity.
Qed.

Lemma response_text_error (d : list (str * json)) (v : json) :
  lookup (lit "error") d = Some v ->
  response_text (JDict d)
  = Raise (RuntimeError (lit "Model error: " ++ py_str v)).
Proof.
  intros H. unfold response_text. cbn. rewrite H. reflexivity.
Qed.

(** The shapes that do reach the final [else]: anything that is neither a
    list nor a dict, a dict without an error field, and a list whose first
    element is a dict without a generated-text field. *)
Lemma response_text_unexpected (result : json) :
  match result with
  | JList (JDict d :: _) => lookup (lit "generated_text") d = None
  | JList _ => False
  | JDict d => lookup (lit "error") d = None
  | _ => True
  end ->
  response_text result
  = Raise (RuntimeError (lit "Unexpected API response format.")).
Proof.
  destruct result as [| b | n | f | s | l | d]; try reflexivity.
  - destruct l as [|[| | | | | |d] rest]; try contradiction.
    intros H. unfold response_text. cbn. rewrite H. reflexivity.
  - intros H. unfold response_text. cbn. rewrite H. reflexivity.
Qed.

(** An empty list is indexed before anything is known about it. *)
Lemma response_text_empty :
  response_text (JList []) = Raise (IndexError (lit "list index out of range")).
Proof. reflexivity. Qed.

(** A text without the marker is returned whole, trimmed. *)
Lemma response_text_no_marker (d : list (str * json)) (rest : list json)
    (s : str) :
  lookup (lit "generated_text") d = Some (JStr s) ->
  occurs (lit "Assistant:") s = false ->
  response_text (JList (JDict d :: rest)) = Return (strip s).
Proof.
  intros H O. rewrite (response_text_generated d rest s H).
  now rewrite (split_absent _ _ O).
Qed.

(** C4, as the code has it: the marker is the literal "Assistant:".  When
    the generated text is [p ++ "Assistant:" ++ r] and [r] holds no further
    marker, the client returns [r] with the white space at both ends
    removed, whatever [p] is. *)
Theorem assistant_marker_stripped (w : World) (prompt : str) (st : State)
    (d : list (str * json)) (rest : list json) (p r : str) :
  http_post w prompt = inr (JList (JDict d :: rest)) ->
  lookup (lit "generated_text") d = Some (JStr (p ++ lit "Assistant:" ++ r)) ->
  occurs (lit "Assistant:") r = false ->
  fst (generate_ai_response w prompt st) = Return (strip r).
Proof.
  intros Hw Hd Hr. rewrite generate_ai_response_run. cbn [fst].
  unfold model_outcome. rewrite Hw.
  rewrite (response_text_generated d rest _ Hd). do 2 f_equal.
  unfold split.
  apply (last_piece_after_marker (lit "Assistant:") r) with (n := List.length p);
    [reflexivity | discriminate | exact Hr | apply le_n].
Qed.

(** C7: a body that is an object with an error field makes the client raise
    the model error, with the printed value of that field after the fixed
    prefix; the failure is neither of the two other kinds. *)
Theorem error_field_is_model_error (w : World) (prompt : str) (st : State)
    (d : list (str * json)) (v : json) :
  http_post w prompt = inr (JDict d) ->
  lookup (lit "error") d = Some v ->
  fst (generate_ai_response w prompt st)
  = Raise (RuntimeError (lit "Model error: " ++ py_str v))
  /\ error_kind (RuntimeError (lit "Model error: " ++ py_str v))
     = Some ModelError.
Proof.
  intros Hw Hd. rewrite generate_ai_response_run. cbn [fst].
  unfold model_outcome. rewrite Hw. split.
  - exact (response_text_error d v Hd).
  - unfold error_kind.
    change (lit "Model error: " ++ py_str v)
      with (77%N :: (skipn 1 (lit "Model error: ") ++ py_str v)).
    change (starts_with (lit "Failed to contact Hugging Face API: ")
              (77%N :: (skipn 1 (lit "Model error: ") ++ py_str v)))
      with false.
    cbv iota.
    change (77%N :: (skipn 1 (lit "Model error: ") ++ py_str v))
      with (lit "Model error: " ++ py_str v).
    now rewrite starts_with_app.
Qed.

(** C2 at the empty sequence: the client raises [IndexError], which is none
    of its three kinds, where an unexpected-shape failure is due. *)
Theorem empty_sequence_escapes_classification (w : World) (prompt : str)
    (st : State) :
  http_post w prompt = inr (JList []) ->
  fst (generate_ai_response w prompt st)
  = Raise (IndexError (lit "list index out of range"))
  /\ error_kind (IndexError (lit "list index out of range")) = None.
Proof.
  intros Hw. rewrite generate_ai_response_run. cbn [fst].
  unfold model_outcome. rewrite Hw. split; reflexivity.
Qed.

(* ================================================================== *)
(** * The handlers *)
(* ================================================================== *)

Arguments generate_ai_response : simpl never.
Arguments model_outcome : simpl never.
Arguments select_joined : simpl never.
Arguments truthy : simpl never.
Arguments dict_get : simpl never.

(** Opening a handler up to the calls it makes. *)
Ltac open_handler H :=
  unfold submit_patient, chatbot_query, try_except, get_connection,
    mysql_connect, cursor, execute, commit, fetchone, cursor_close,
    conn_close, cursor_lastrowid, db_call, raise, init, log in H;
  cbn in H.

(** One step of a run: decide the next thing the world is asked. *)
Ltac run_step H :=
  match type of H with
  | context [generate_ai_response ?w ?p ?st] =>
      rewrite (generate_ai_response_run w p st) in H
  | context [match connect_error ?w with _ => _ end] =>
      destruct (connect_error w) as [[]|] eqn:?
  | context [match db_fault ?w ?s with _ => _ end] =>
      destruct (db_fault w s) eqn:?
  | context [match model_outcome ?w ?p with _ => _ end] =>
      destruct (model_outcome w p) eqn:?
  | context [hd_error (select_joined ?db ?k)] =>
      destruct (select_joined db k) eqn:?
  end.

Ltac run H := repeat (run_step H; cbn in H; try discriminate H).

(** C1: when /submit answers with success, the patients table has grown by
    exactly the row of the payload under the identifier the store handed
    out, the prescriptions table has grown by exactly one row that carries
    that identifier, and the three text columns of that row are the one
    string the inference client returned for the intake prompt. *)
Theorem submit_success_rows (w : World) (db : Store) (data : PatientInput)
    (body : json) (st' : State) :
  submit_patient w data (init db) = (Return body, st') ->
  exists ai_output : str,
    model_outcome w (intake_prompt data) = Return ai_output /\
    patients (store st')
    = patients db ++ [{| p_id := next_patient_id db; p_data := data |}] /\
    prescriptions (store st')
    = prescriptions db
      ++ [{| r_id := next_prescription_id db;
             r_patient_id := Some (next_patient_id db);
             ai_summary := ai_output;
             treatment_options := ai_output;
             medication_recommendations := ai_output |}] /\
    body = JDict [(lit "message",
                   JStr (lit "Patient and AI-powered prescription saved."));
                  (lit "patient_id", JInt (next_patient_id db))].
Proof.
  intros H. open_handler H. run H.
  injection H as <- <-. cbn.
  rewrite !app_nil_r. eauto.
Qed.

(** C6: once the patient row is committed, a failure of the model call, of
    the second INSERT or of its commit makes /submit answer 500 and leaves
    the store with the new patient row, the prescriptions table as it was,
    and so no prescription for the new patient. *)
Theorem failed_prescription_leaves_orphan (w : World) (db : Store)
    (data : PatientInput) :
  keys_below_counters db ->
  connect_error w = None ->
  db_fault w OpenCursor = None ->
  db_fault w InsertPatient = None ->
  db_fault w CommitPatient = None ->
  (exists e, model_outcome w (intake_prompt data) = Raise e)
  \/ (exists e, db_fault w InsertPrescription = Some e)
  \/ (exists e, db_fault w CommitPrescription = Some e) ->
  exists detail st',
    submit_patient w data (init db) = (Raise (HTTPException 500 detail), st') /\
    patients (store st')
    = patients db ++ [{| p_id := next_patient_id db; p_data := data |}] /\
    prescriptions (store st') = prescriptions db /\
    (forall p, In p (patients db) -> p_id p <> next_patient_id db) /\
    (forall r, In r (prescriptions (store st')) ->
               r_patient_id r <> Some (next_patient_id db)).
Proof.
  intros [Kp Kr] Hc H1 H2 H3 Hfail.
  assert (Fresh : (forall p, In p (patients db) -> p_id p <> next_patient_id db)
                  /\ (forall r, In r (prescriptions db) ->
                        r_patient_id r <> Some (next_patient_id db))).
  { split.
    - intros p Hp. specialize (Kp p Hp). lia.
    - intros r Hr E. specialize (Kr r _ Hr E). lia. }
  destruct Fresh as [Fp Fr].
  destruct (submit_patient w data (init db)) as [o st'] eqn:H.
  open_handler H. rewrite Hc, H1, H2, H3 in H. cbn in H.
  rewrite generate_ai_response_run in H.
  destruct Hfail as [[e He] | [[e He] | [e He]]].
  - rewrite He in H. cbn in H. injection H as <- <-.
    do 2 eexists. cbn. rewrite !app_nil_r. repeat split; auto.
  - destruct (model_outcome w (intake_prompt data)) eqn:Hm; cbn in H.
    + rewrite He in H. injection H as <- <-.
      do 2 eexists. cbn. rewrite !app_nil_r. repeat split; auto.
    + injection H as <- <-.
      do 2 eexists. cbn. rewrite !app_nil_r. repeat split; auto.
  - destruct (model_outcome w (intake_prompt data)) eqn:Hm; cbn in H.
    + destruct (db_fault w InsertPrescription) eqn:Hi; cbn in H.
      * injection H as <- <-.
        do 2 eexists. cbn. rewrite !app_nil_r. repeat split; auto.
      * rewrite He in H. injection H as <- <-.
        do 2 eexists. cbn. rewrite !app_nil_r. repeat split; auto.
    + injection H as <- <-.
      do 2 eexists. cbn. rewrite !app_nil_r. repeat split; auto.
Qed.

(** C5 on /submit: when the model call fails after the patient row was
    committed, the handler answers 500 and the connection it opened is
    still open when it returns. *)
Theorem model_failure_leaks_connection (w : World) (db : Store)
    (data : PatientInput) (e : exn) :
  connect_error w = None ->
  db_fault w OpenCursor = None ->
  db_fault w InsertPatient = None ->
  db_fault w CommitPatient = None ->
  model_outcome w (intake_prompt data) = Raise e ->
  fst (submit_patient w data (init db)) = Raise (HTTPException 500 (str_exn e))
  /\ conn (snd (submit_patient w data (init db))) <> None.
Proof.
  intros Hc H1 H2 H3 Hm.
  destruct (submit_patient w data (init db)) as [o st'] eqn:H.
  open_handler H. rewrite Hc, H1, H2, H3 in H. cbn in H.
  rewrite generate_ai_response_run, Hm in H. cbn in H.
  injection H as <- <-. cbn. split; [reflexivity | discriminate].
Qed.

(** C5 on /chatbot: when the SELECT fails, the handler answers 500 and the
    connection it opened is still open when it returns. *)
Lemma lookup_failure_leaks_connection (w : World) (db : Store)
    (payload : list (str * json)) (e : exn) :
  truthy (dict_get payload (lit "patient_id")) = true ->
  truthy (dict_get payload (lit "message")) = true ->
  connect_error w = None ->
  db_fault w OpenCursor = None ->
  db_fault w SelectJoined = Some e ->
  fst (chatbot_query w payload (init db)) = Raise (HTTPException 500 (str_exn e))
  /\ conn (snd (chatbot_query w payload (init db))) <> None.
Proof.
  intros Hp Hm Hc H1 H2.
  destruct (chatbot_query w payload (init db)) as [o st'] eqn:H.
  unfold chatbot_query in H. rewrite Hp, Hm in H.
  open_handler H. rewrite Hc, H1, H2 in H. cbn in H.
  injection H as <- <-. cbn. split; [reflexivity | discriminate].
Qed.

(** Where the handlers do release the connection: a successful /submit,
    and every /chatbot run that got past the lookup. *)
Lemma submit_success_closes (w : World) (db : Store) (data : PatientInput)
    (body : json) (st' : State) :
  submit_patient w data (init db) = (Return body, st') -> conn st' = None.
Proof.
  intros H. open_handler H. run H. now injection H as <- <-.
Qed.

Lemma dict_get_absent (payload : list (str * json)) (k : str) :
  lookup k payload = None -> dict_get payload k = JNull.
Proof. unfold dict_get. now intros ->. Qed.

Lemma dict_get_present (payload : list (str * json)) (k : str) (v : json) :
  lookup k payload = Some v -> dict_get payload k = v.
Proof. unfold dict_get. now intros ->. Qed.

(** The guard of line 139, by itself. *)
Lemma chatbot_refuses (w : World) (payload : list (str * json)) (st : State) :
  truthy (dict_get payload (lit "patient_id")) = false
  \/ truthy (dict_get payload (lit "message")) = false ->
  chatbot_query w payload st = (Raise missing_field, st).
Proof.
  intros H. unfold chatbot_query.
  destruct H as [-> | ->]; [|rewrite orb_true_r]; reflexivity.
Qed.

(** C8: a request without [patient_id] or without [message] is answered
    with 400, and nothing was done for it: no connection, no lookup, no
    remote call, the store untouched. *)
Theorem missing_field_is_400 (w : World) (db : Store)
    (payload : list (str * json)) :
  lookup (lit "patient_id") payload = None
  \/ lookup (lit "message") payload = None ->
  chatbot_query w payload (init db) = (Raise missing_field, init db)
  /\ status_of (fst (chatbot_query w payload (init db))) = 400
  /\ lookups (trace (snd (chatbot_query w payload (init db)))) = []
  /\ posts (trace (snd (chatbot_query w payload (init db)))) = [].
Proof.
  intros H.
  assert (E : chatbot_query w payload (init db) = (Raise missing_field, init db)).
  { apply chatbot_refuses.
    destruct H as [H | H]; [left | right];
      now rewrite (dict_get_absent _ _ H). }
  rewrite E. repeat split; reflexivity.
Qed.

(** C10: a field that is present but falsy is refused exactly as an absent
    one is, before the store is touched; identifier 0 in particular never
    gets a reply. *)
Theorem falsy_field_is_400 (w : World) (db : Store)
    (payload : list (str * json)) (v : json) :
  lookup (lit "patient_id") payload = Some v
  \/ lookup (lit "message") payload = Some v ->
  truthy v = false ->
  chatbot_query w payload (init db) = (Raise missing_field, init db)
  /\ chatbot_query w payload (init db) = chatbot_query w [] (init db)
  /\ (lookup (lit "patient_id") payload = Some (JInt 0) ->
      forall reply st', chatbot_query w payload (init db)
                        <> (Return reply, st')).
Proof.
  intros H F.
  assert (E : chatbot_query w payload (init db) = (Raise missing_field, init db)).
  { apply chatbot_refuses.
    destruct H as [H | H]; [left | right];
      now rewrite (dict_get_present _ _ _ H), F. }
  rewrite E. split; [reflexivity | split; [reflexivity | discriminate]].
Qed.

(** C3, as the code has it: when no joined record matches, /chatbot makes
    no remote call, but the 404 it raises inside its own [try] is caught by
    the [except Exception] below it, so the status the client sees is 500
    (or 400 from the guard), never 404. *)
Theorem no_match_is_never_404 (w : World) (db : Store)
    (payload : list (str * json)) :
  select_joined db (dict_get payload (lit "patient_id")) = [] ->
  posts (trace (snd (chatbot_query w payload (init db)))) = []
  /\ (status_of (fst (chatbot_query w payload (init db))) = 400
      \/ status_of (fst (chatbot_query w payload (init db))) = 500).
Proof.
  intros Hs.
  destruct (chatbot_query w payload (init db)) as [o st'] eqn:H.
  unfold chatbot_query in H.
  destruct (negb (truthy (dict_get payload (lit "patient_id")))
            || negb (truthy (dict_get payload (lit "message")))).
  - injection H as <- <-. split; [reflexivity | now left].
  - open_handler H.
    repeat (first [rewrite Hs in H | run_step H]; cbn in H);
      injection H as <- <-; split; (reflexivity || now right).
Qed.

(** With nothing failing, the answer to an unknown identifier is the 500
    whose detail is the printed 404. *)
Lemma not_found_answer (w : World) (db : Store) (payload : list (str * json)) :
  truthy (dict_get payload (lit "patient_id")) = true ->
  truthy (dict_get payload (lit "message")) = true ->
  connect_error w = None ->
  (forall s, db_fault w s = None) ->
  select_joined db (dict_get payload (lit "patient_id")) = [] ->
  fst (chatbot_query w payload (init db))
  = Raise (HTTPException 500
             (str_exn (HTTPException 404 (lit "Patient not found.")))).
Proof.
  intros Hp Hm Hc Hf Hs.
  destruct (chatbot_query w payload (init db)) as [o st'] eqn:H.
  unfold chatbot_query in H. rewrite Hp, Hm in H.
  open_handler H.
  repeat (first [rewrite Hc in H | rewrite Hf in H | rewrite Hs in H];
          cbn in H).
  now injection H as <- <-.
Qed.

(** /chatbot writes nothing: whatever happens, the tables are as they
    were. *)
Lemma chatbot_store_unchanged (w : World) (db : Store)
    (payload : list (str * json)) :
  store (snd (chatbot_query w payload (init db))) = db.
Proof.
  destruct (chatbot_query w payload (init db)) as [o st'] eqn:H.
  unfold chatbot_query in H.
  destruct (negb (truthy (dict_get payload (lit "patient_id")))
            || negb (truthy (dict_get payload (lit "message")))).
  - now injection H as <- <-.
  - open_handler H. destruct db.
    run H; now injection H as <- <-.
Qed.

(** With nothing failing and the model answering, /submit succeeds: the
    success that C1 speaks of is there for every payload. *)
Lemma submit_succeeds (w : World) (db : Store) (data : PatientInput)
    (ai_output : str) :
  connect_error w = None ->
  (forall s, db_fault w s = None) ->
  model_outcome w (intake_prompt data) = Return ai_output ->
  fst (submit_patient w data (init db))
  = Return (JDict [(lit "message",
                    JStr (lit "Patient and AI-powered prescription saved."));
                   (lit "patient_id", JInt (next_patient_id db))]).
Proof.
  intros Hc Hf Hm.
  destruct (submit_patient w data (init db)) as [o st'] eqn:H.
  open_handler H. rewrite Hc in H. cbn in H.
  rewrite !Hf in H. cbn in H.
  rewrite generate_ai_response_run, Hm in H. cbn in H.
  now injection H as <- <-.
Qed.

(** Every run of /submit keeps the counters above the keys in use. *)
Lemma submit_keeps_keys_below_counters (w : World) (db : Store)
    (data : PatientInput) :
  keys_below_counters db ->
  keys_below_counters (store (snd (submit_patient w data (init db)))).
Proof.
  intros [Kp Kr].
  destruct (submit_patient w data (init db)) as [o st'] eqn:H.
  open_handler H.
  run H; injection H as <- <-; cbn; split; cbn;
    rewrite ?app_nil_r;
    intros;
    repeat match goal with
           | E : r_patient_id _ = Some _ |- _ => progress cbn in E
           | I : In _ (_ ++ _) |- _ => apply in_app_or in I
           | I : _ \/ _ |- _ => destruct I
           | I : In _ [_] |- _ => destruct I as [<- | []]
           | I : In _ [] |- _ => destruct I
           | I : In ?p (patients db) |- _ => apply Kp in I
           | I : In ?r (prescriptions db), E : r_patient_id ?r = Some _ |- _ =>
               apply (Kr _ _ I) in E
           | E : Some _ = Some _ |- _ => injection E as E
           end;
    cbn in *; try lia.
Qed.

(** ** The prompts *)

(** Each handler sends at most one prompt, and it is the prompt built from
    the fields. *)
Lemma submit_posts (w : World) (db : Store) (data : PatientInput) :
  posts (trace (snd (submit_patient w data (init db)))) = []
  \/ posts (trace (snd (submit_patient w data (init db))))
     = [intake_prompt data].
Proof.
  destruct (submit_patient w data (init db)) as [o st'] eqn:H.
  open_handler H.
  run H; injection H as <- <-; cbn; auto.
Qed.

Lemma chatbot_posts (w : World) (db : Store) (payload : list (str * json)) :
  posts (trace (snd (chatbot_query w payload (init db)))) = []
  \/ exists row,
       hd_error (select_joined db (dict_get payload (lit "patient_id")))
       = Some row /\
       posts (trace (snd (chatbot_query w payload (init db))))
       = [consult_prompt row (dict_get payload (lit "message"))].
Proof.
  destruct (chatbot_query w payload (init db)) as [o st'] eqn:H.
  unfold chatbot_query in H.
  destruct (negb (truthy (dict_get payload (lit "patient_id")))
            || negb (truthy (dict_get payload (lit "message")))).
  - injection H as <- <-. now left.
  - open_handler H.
    run H; injection H as <- <-; cbn; eauto.
Qed.

(** The intake prompt reads four fields of the payload and nothing else. *)
Lemma intake_prompt_fields (d1 d2 : PatientInput) :
  age d1 = age d2 ->
  symptoms d1 = symptoms d2 ->
  medical_history d1 = medical_history d2 ->
  allergies d1 = allergies d2 ->
  intake_prompt d1 = intake_prompt d2.
Proof. unfold intake_prompt. now intros -> -> -> ->. Qed.

(** C9: the prompt a handler sends is fixed by the structured fields.  Two
    /submit runs on payloads that agree on age, symptoms, medical history
    and allergies, and two /chatbot runs that carry the same message and
    whose lookups yield the same record, send identical prompts, whatever
    the worlds, the stores and the other fields are. *)
Theorem prompts_depend_on_fields_only
    (w1 w2 : World) (db1 db2 : Store) (d1 d2 : PatientInput)
    (payload1 payload2 : list (str * json)) :
  age d1 = age d2 ->
  symptoms d1 = symptoms d2 ->
  medical_history d1 = medical_history d2 ->
  allergies d1 = allergies d2 ->
  dict_get payload1 (lit "message") = dict_get payload2 (lit "message") ->
  hd_error (select_joined db1 (dict_get payload1 (lit "patient_id")))
  = hd_error (select_joined db2 (dict_get payload2 (lit "patient_id"))) ->
  (forall p1 p2,
      In p1 (posts (trace (snd (submit_patient w1 d1 (init db1))))) ->
      In p2 (posts (trace (snd (submit_patient w2 d2 (init db2))))) ->
      p1 = p2)
  /\ (forall p1 p2,
      In p1 (posts (trace (snd (chatbot_query w1 payload1 (init db1))))) ->
      In p2 (posts (trace (snd (chatbot_query w2 payload2 (init db2))))) ->
      p1 = p2).
Proof.
  intros Ha Hs Hh Hl Hm Hr. split; intros p1 p2 I1 I2.
  - destruct (submit_posts w1 db1 d1) as [E1 | E1]; rewrite E1 in I1;
      [destruct I1|].
    destruct (submit_posts w2 db2 d2) as [E2 | E2]; rewrite E2 in I2;
      [destruct I2|].
    destruct I1 as [<- | []]. destruct I2 as [<- | []].
    now apply intake_prompt_fields.
  - destruct (chatbot_posts w1 db1 payload1) as [E1 | (r1 & R1 & E1)];
      rewrite E1 in I1; [destruct I1|].
    destruct (chatbot_posts w2 db2 payload2) as [E2 | (r2 & R2 & E2)];
      rewrite E2 in I2; [destruct I2|].
    destruct I1 as [<- | []]. destruct I2 as [<- | []].
    rewrite Hr, R2 in R1. injection R1 as ->. now rewrite Hm.
Qed.

(* ================================================================== *)
(** * Further properties of the inference client *)
(* ================================================================== *)

Lemma starts_with_more (p s c : str) :
  starts_with p s = true -> starts_with p (s ++ c) = true.
Proof.
  revert s; induction p as [|x p IH]; intros [|y s] H; simpl in *;
    try reflexivity; try discriminate.
  apply andb_true_iff in H as [-> H]. simpl. now apply IH.
Qed.

Lemma occurs_app_l (sep b c : str) :
  occurs sep b = true -> occurs sep (b ++ c) = true.
Proof.
  induction b as [|x b IH]; intros H.
  - simpl in H. rewrite orb_false_r in H.
    destruct sep; [|discriminate]. destruct c; reflexivity.
  - simpl in H. apply orb_true_iff in H as [H | H].
    + change (occurs sep ((x :: b) ++ c))
        with (starts_with sep ((x :: b) ++ c) || occurs sep (b ++ c)).
      now rewrite (starts_with_more _ _ c H).
    + change (occurs sep ((x :: b) ++ c))
        with (starts_with sep ((x :: b) ++ c) || occurs sep (b ++ c)).
      rewrite (IH H). apply orb_true_r.
Qed.

Lemma occurs_app_r (sep a b : str) :
  occurs sep b = true -> occurs sep (a ++ b) = true.
Proof.
  intros H. induction a as [|x a IH]; [exact H|].
  change (occurs sep ((x :: a) ++ b))
    with (starts_with sep ((x :: a) ++ b) || occurs sep (a ++ b)).
  rewrite IH. apply orb_true_r.
Qed.

(** A text free of the separator has no part that holds it. *)
Lemma occurs_infix (sep a b c : str) :
  occurs sep (a ++ b ++ c) = false -> occurs sep b = false.
Proof.
  intros H. destruct (occurs sep b) eqn:E; [|reflexivity].
  now rewrite (occurs_app_r sep a _ (occurs_app_l sep b c E)) in H.
Qed.

(** No occurrence starts anywhere in [u]. *)
Lemma occurs_nowhere (sep u : str) :
  (forall a b, u = a ++ b -> starts_with sep b = false) ->
  occurs sep u = false.
Proof.
  induction u as [|x u IH]; intros H; simpl.
  - now rewrite (H [] [] eq_refl).
  - rewrite (H [] (x :: u) eq_refl). simpl. apply IH.
    intros a b ->. now apply (H (x :: a) b).
Qed.

Lemma clear_so_far_step (sep cur s : str) (c : N) :
  clear_so_far sep cur (c :: s) -> starts_with sep (c :: s) = false ->
  clear_so_far sep (c :: cur) s.
Proof.
  intros Inv Hc a b E Hb. simpl in E.
  destruct (exists_last Hb) as (b' & y & ->).
  rewrite app_assoc in E. apply app_inj_tail in E as [E ->].
  rewrite <- app_assoc. simpl.
  destruct b' as [|z b']; [exact Hc|].
  apply (Inv a); [exact E | discriminate].
Qed.

(** The last piece of a split holds no separator. *)
Lemma last_piece_clear (sep : str) :
  sep <> [] ->
  forall s skip cur,
    (skip = O -> clear_so_far sep cur s) -> (skip <> O -> cur = []) ->
    occurs sep (last_piece (split_from sep skip cur s)) = false.
Proof.
  intros Hs. induction s as [|c s IH]; intros skip cur H0 H1.
  - simpl. destruct skip as [|k].
    + apply occurs_nowhere. intros a b E.
      destruct b as [|y b]; [destruct sep; [congruence | reflexivity]|].
      specialize (H0 eq_refl a (y :: b) E ltac:(discriminate)).
      now rewrite app_nil_r in H0.
    + rewrite (H1 ltac:(discriminate)). destruct sep; [congruence | reflexivity].
  - cbn [split_from]. destruct skip as [|k].
    + destruct (starts_with sep (c :: s)) eqn:E.
      * rewrite last_piece_cons by apply split_from_nonempty.
        apply IH; [|reflexivity].
        intros _ a b Ea Hb. destruct a; destruct b; simpl in Ea; congruence.
      * apply IH; [|congruence].
        intros _. apply clear_so_far_step; auto.
    + rewrite (H1 ltac:(discriminate)). apply IH; [|reflexivity].
      intros _ a b Ea Hb. destruct a; destruct b; simpl in Ea; congruence.
Qed.

Lemma split_last_piece_clear (sep s : str) :
  sep <> [] -> occurs sep (last_piece (split sep s)) = false.
Proof.
  intros Hs. apply last_piece_clear; [exact Hs | | reflexivity].
  intros _ a b Ea Hb. destruct a; destruct b; simpl in Ea; congruence.
Qed.

(** [lstrip] leaves a text that starts with no white space as it is. *)
Lemma lstrip_fixed (s : str) :
  match s with
  | [] => True
  | c :: _ => py_isspace c = false
  end ->
  lstrip s = s.
Proof. destruct s as [|c s]; simpl; [reflexivity | now intros ->]. Qed.

Lemma strip_idempotent (s : str) : strip (strip s) = strip s.
Proof.
  destruct (strip_trimmed s) as [Hh Ht].
  unfold strip at 1. rewrite (lstrip_fixed _ Hh), (lstrip_fixed _ Ht).
  apply rev_involutive.
Qed.

(** [strip] returns a part of its argument. *)
Lemma strip_infix (s : str) : exists x y, s = x ++ strip s ++ y.
Proof.
  destruct (lstrip_suffix s) as [x Hx].
  destruct (lstrip_suffix (rev (lstrip s))) as [y Hy].
  exists x, (rev y). unfold strip.
  rewrite <- rev_app_distr, <- Hy, rev_involutive. exact Hx.
Qed.

Lemma strip_clear (sep s : str) :
  occurs sep s = false -> occurs sep (strip s) = false.
Proof.
  intros H. destruct (strip_infix s) as (x & y & E).
  rewrite E in H. exact (occurs_infix sep x _ y H).
Qed.

(** Whatever [response_text] returns came out of line 42. *)
Lemma response_text_return (result : json) (text : str) :
  response_text result = Return text ->
  exists s, text = strip (last_piece (split (lit "Assistant:") s)).
Proof.
  unfold response_text.
  destruct result as [| b | n | f | s | l | d]; cbn; try discriminate.
  - destruct l as [|first rest]; cbn; [discriminate|].
    destruct first as [| b | n | f | s | l' | d]; cbn; try discriminate.
    + destruct (occurs (lit "generated_text") s); cbn; discriminate.
    + destruct (existsb (fun y => eq_str y (lit "generated_text")) l'); cbn;
        discriminate.
    + destruct (lookup (lit "generated_text") d) as [v|]; cbn;
        [|discriminate].
      destruct v; cbn; try discriminate.
      intros [= <-]. eauto.
  - destruct (lookup (lit "error") d); cbn; discriminate.
Qed.

Lemma model_outcome_clean (w : World) (prompt text : str) :
  model_outcome w prompt = Return text ->
  strip text = text /\ occurs (lit "Assistant:") text = false.
Proof.
  unfold model_outcome.
  destruct (http_post w prompt) as [e | result]; [discriminate|].
  intros H. destruct (response_text_return result text H) as [s ->].
  split; [apply strip_idempotent|].
  apply strip_clear, split_last_piece_clear. discriminate.
Qed.

(** The client's own transport failure (lines 35-39): when the request or
    the decoding of its answer raises, the client raises the transport
    error with the printed exception after the fixed prefix, having made
    that one call and nothing else. *)
Theorem transport_failure_is_wrapped (w : World) (prompt : str) (st : State)
    (e : exn) :
  http_post w prompt = inl e ->
  generate_ai_response w prompt st
  = (Raise (RuntimeError
              (lit "Failed to contact Hugging Face API: " ++ str_exn e)),
     log (EvPost prompt) st)
  /\ error_kind (RuntimeError
                   (lit "Failed to contact Hugging Face API: " ++ str_exn e))
     = Some TransportError.
Proof.
  intros Hw. rewrite generate_ai_response_run. unfold model_outcome.
  rewrite Hw. split; [reflexivity|].
  unfold error_kind. now rewrite starts_with_app.
Qed.

(** What the client returns is clean: it has no white space at either end,
    so that stripping it again changes nothing, and it holds no
    "Assistant:" marker. *)
Theorem returned_text_is_clean (w : World) (prompt : str) (st : State)
    (text : str) :
  fst (generate_ai_response w prompt st) = Return text ->
  strip text = text /\ occurs (lit "Assistant:") text = false.
Proof.
  rewrite generate_ai_response_run. cbn [fst]. apply model_outcome_clean.
Qed.

(** The client never raises [KeyError]: each of its two subscripts by key
    comes after a test for that key. *)
Theorem response_never_key_error (result : json) (m : str) :
  response_text result <> Raise (KeyError m).
Proof.
  unfold response_text.
  destruct result as [| b | n | f | s | l | d]; cbn; try discriminate.
  - destruct l as [|first rest]; cbn; [discriminate|].
    destruct first as [| b | n | f | s | l' | d]; cbn; try discriminate.
    + destruct (occurs (lit "generated_text") s); cbn; discriminate.
    + destruct (existsb (fun y => eq_str y (lit "generated_text")) l'); cbn;
        discriminate.
    + destruct (lookup (lit "generated_text") d) as [v|]; cbn;
        [|discriminate].
      destruct v; cbn; discriminate.
  - destruct (lookup (lit "error") d); cbn; discriminate.
Qed.

(** The shapes that the final [else] does catch.  Anything that is neither
    a list nor a dict, a dict without an error field, and a list whose
    first element is a dict without a generated-text field, a string that
    does not hold "generated_text" or a list without that string, all make
    the client raise the unexpected-format error.  An error object inside a
    list is among them. *)
Theorem unexpected_shapes_are_classified (w : World) (prompt : str)
    (st : State) (result : json) :
  http_post w prompt = inr result ->
  match result with
  | JList (JDict d :: _) => lookup (lit "generated_text") d = None
  | JList (JStr s :: _) => occurs (lit "generated_text") s = false
  | JList (JList l :: _) =>
      existsb (fun y => eq_str y (lit "generated_text")) l = false
  | JList _ => False
  | JDict d => lookup (lit "error") d = None
  | _ => True
  end ->
  fst (generate_ai_response w prompt st)
  = Raise (RuntimeError (lit "Unexpected API response format."))
  /\ error_kind (RuntimeError (lit "Unexpected API response format."))
     = Some UnexpectedResponseShape.
Proof.
  intros Hw Hs. rewrite generate_ai_response_run. cbn [fst].
  unfold model_outcome. rewrite Hw. split; [|reflexivity].
  unfold response_text.
  destruct result as [| b | n | f | s | l | d]; try reflexivity.
  - destruct l as [|[| | | | s | l' | d] rest]; try contradiction;
      cbn; now rewrite Hs.
  - cbn. now rewrite Hs.
Qed.

(** A generated-text field that is not a string: the client goes down the
    success branch and fails on [split] with [AttributeError], which is
    none of its three kinds. *)
Theorem text_of_wrong_type_escapes (w : World) (prompt : str) (st : State)
    (d : list (str * json)) (rest : list json) (v : json) :
  http_post w prompt = inr (JList (JDict d :: rest)) ->
  lookup (lit "generated_text") d = Some v ->
  match v with JStr _ => False | _ => True end ->
  fst (generate_ai_response w prompt st)
  = Raise (AttributeError (lit "'" ++ type_name v
                           ++ lit "' object has no attribute 'split'"))
  /\ error_kind (AttributeError (lit "'" ++ type_name v
                                 ++ lit "' object has no attribute 'split'"))
     = None.
Proof.
  intros Hw Hd Hv. rewrite generate_ai_response_run. cbn [fst].
  unfold model_outcome. rewrite Hw. split; [|reflexivity].
  unfold response_text. cbn. rewrite Hd. cbn.
  destruct v; try reflexivity. contradiction.
Qed.

(* ================================================================== *)
(** * Further properties of the handlers *)
(* ================================================================== *)

(** /submit answers with success or with 500, nothing else: whatever is
    raised inside it, its own [HTTPException] from [get_connection]
    included, leaves as a 500. *)
Theorem submit_answers_200_or_500 (w : World) (db : Store)
    (data : PatientInput) :
  (exists body, fst (submit_patient w data (init db)) = Return body)
  \/ (exists detail, fst (submit_patient w data (init db))
                     = Raise (HTTPException 500 detail)).
Proof.
  destruct (submit_patient w data (init db)) as [o st'] eqn:H.
  open_handler H.
  run H; injection H as <- <-; cbn; eauto.
Qed.

(** /chatbot answers with 200, 400 or 500 on every request: the 404 of
    line 159 never reaches the client. *)
Theorem chatbot_answers_200_400_or_500 (w : World) (db : Store)
    (payload : list (str * json)) :
  status_of (fst (chatbot_query w payload (init db))) = 200
  \/ status_of (fst (chatbot_query w payload (init db))) = 400
  \/ status_of (fst (chatbot_query w payload (init db))) = 500.
Proof.
  destruct (chatbot_query w payload (init db)) as [o st'] eqn:H.
  unfold chatbot_query in H.
  destruct (negb (truthy (dict_get payload (lit "patient_id")))
            || negb (truthy (dict_get payload (lit "message")))).
  - injection H as <- <-. cbn. auto.
  - open_handler H.
    run H; injection H as <- <-; cbn; auto.
Qed.

(** /chatbot has released its connection before it calls the model: a run
    that sent a prompt ends with no connection open, and [conn.close()]
    comes before the call. *)
Theorem consult_closes_before_model_call (w : World) (db : Store)
    (payload : list (str * json)) :
  posts (trace (snd (chatbot_query w payload (init db)))) = []
  \/ (conn (snd (chatbot_query w payload (init db))) = None
      /\ exists pre p,
           trace (snd (chatbot_query w payload (init db))) = pre ++ [EvPost p]
           /\ In EvClose pre).
Proof.
  destruct (chatbot_query w payload (init db)) as [o st'] eqn:H.
  unfold chatbot_query in H.
  destruct (negb (truthy (dict_get payload (lit "patient_id")))
            || negb (truthy (dict_get payload (lit "message")))).
  - injection H as <- <-. now left.
  - open_handler H.
    run H; injection H as <- <-; cbn; auto;
      right; (split; [reflexivity|]);
      eexists [EvConnect; EvCursor; EvExecute _; EvFetchone; EvCursorClose;
               EvClose], _;
      (split; [reflexivity | cbn; tauto]).
Qed.

(** /submit calls the model exactly when the patient row is committed: a
    run that sent no prompt has left both tables as they were, and a run
    that sent one sent the intake prompt, once, with the patient row
    already in the table. *)
Theorem intake_row_iff_model_called (w : World) (db : Store)
    (data : PatientInput) :
  (posts (trace (snd (submit_patient w data (init db)))) = []
   /\ patients (store (snd (submit_patient w data (init db)))) = patients db
   /\ prescriptions (store (snd (submit_patient w data (init db))))
      = prescriptions db)
  \/ (posts (trace (snd (submit_patient w data (init db))))
      = [intake_prompt data]
      /\ patients (store (snd (submit_patient w data (init db))))
         = patients db
           ++ [{| p_id := next_patient_id db; p_data := data |}]).
Proof.
  destruct (submit_patient w data (init db)) as [o st'] eqn:H.
  open_handler H.
  run H; injection H as <- <-; cbn; rewrite ?app_nil_r; auto.
Qed.

(** Every run of /submit keeps the references of the prescriptions
    resolved: a prescription row is only ever written for a patient row
    that is already committed. *)
Theorem submit_keeps_references_resolved (w : World) (db : Store)
    (data : PatientInput) :
  references_resolve db ->
  references_resolve (store (snd (submit_patient w data (init db)))).
Proof.
  intros R.
  destruct (submit_patient w data (init db)) as [o st'] eqn:H.
  open_handler H.
  run H; injection H as <- <-; unfold references_resolve; cbn;
    rewrite ?app_nil_r; intros r k I E;
    try (apply in_app_or in I as [I | [<- | []]]);
    first
      [ destruct (R r k I E) as (p & Ip & Ek);
        exists p; split; [try apply in_or_app; auto | exact Ek]
      | cbn in E; injection E as <-;
        eexists; split;
        [apply in_or_app; right; left; reflexivity | reflexivity] ].
Qed.

(** When the store cannot be reached, both handlers answer 500 with the
    status written twice, "500: Database connection failed: ...", the 500
    of [get_connection] having been caught and printed; nothing else was
    attempted. *)
Theorem unreachable_store_is_500 (w : World) (db : Store)
    (data : PatientInput) (payload : list (str * json)) (m : str) :
  connect_error w = Some (MySQLError m) ->
  truthy (dict_get payload (lit "patient_id")) = true ->
  truthy (dict_get payload (lit "message")) = true ->
  submit_patient w data (init db)
  = (Raise (HTTPException 500 (lit "500: Database connection failed: " ++ m)),
     log EvConnect (init db))
  /\ chatbot_query w payload (init db)
     = (Raise (HTTPException 500
                 (lit "500: Database connection failed: " ++ m)),
        log EvConnect (init db)).
Proof.
  intros Hc Hp Hm. split.
  - destruct (submit_patient w data (init db)) as [o st'] eqn:H.
    open_handler H. rewrite Hc in H. cbn in H. now injection H as <- <-.
  - destruct (chatbot_query w payload (init db)) as [o st'] eqn:H.
    unfold chatbot_query in H. rewrite Hp, Hm in H.
    open_handler H. rewrite Hc in H. cbn in H. now injection H as <- <-.
Qed.

(** When the lookup finds a record and the model answers, /chatbot replies
    with the model's answer to the consult prompt, unchanged: the second
    [strip] of line 180 finds nothing to remove.  The store is as it was
    and the connection is closed. *)
Theorem consult_replies_with_model_output (w : World) (db : Store)
    (payload : list (str * json)) (row : JoinedRow) (reply : str) :
  truthy (dict_get payload (lit "patient_id")) = true ->
  truthy (dict_get payload (lit "message")) = true ->
  connect_error w = None ->
  (forall s, db_fault w s = None) ->
  hd_error (select_joined db (dict_get payload (lit "patient_id")))
  = Some row ->
  model_outcome w (consult_prompt row (dict_get payload (lit "message")))
  = Return reply ->
  fst (chatbot_query w payload (init db))
  = Return (JDict [(lit "reply", JStr reply)])
  /\ store (snd (chatbot_query w payload (init db))) = db
  /\ conn (snd (chatbot_query w payload (init db))) = None.
Proof.
  intros Hp Hm Hc Hf Hr Ho.
  destruct (model_outcome_clean _ _ _ Ho) as [Hs _].
  destruct (chatbot_query w payload (init db)) as [o st'] eqn:H.
  unfold chatbot_query in H. rewrite Hp, Hm in H.
  open_handler H. rewrite Hc in H. cbn in H. rewrite !Hf in H. cbn in H.
  destruct (select_joined db (dict_get payload (lit "patient_id")))
    as [|row' more]; [discriminate|].
  cbn in Hr. injection Hr as ->. cbn in H.
  rewrite generate_ai_response_run, Ho in H. cbn in H. rewrite Hs in H.
  now injection H as <- <-.
Qed.

Lemma filter_none {A : Type} (f : A -> bool) (l : list A) :
  (forall x, In x l -> f x = false) -> filter f l = [].
Proof.
  induction l as [|x l IH]; intros H; [reflexivity|].
  simpl. rewrite (H x (or_introl eq_refl)). apply IH.
  intros y Hy. apply H. now right.
Qed.

Lemma flat_map_none {A B : Type} (f : A -> list B) (l : list A) :
  (forall x, In x l -> f x = []) -> flat_map f l = [].
Proof.
  induction l as [|x l IH]; intros H; [reflexivity|].
  simpl. rewrite (H x (or_introl eq_refl)). apply IH.
  intros y Hy. apply H. now right.
Qed.

(** The lookup on a store to which /submit has just added a patient and
    the prescription for it. *)
Lemma select_joined_fresh (db : Store) (data : PatientInput) (out : str)
    (np nr : Z) :
  (forall n id, sql_key_eq (JInt n) id = (n =? id)) ->
  keys_below_counters db ->
  select_joined
    {| patients := patients db
                   ++ [{| p_id := next_patient_id db; p_data := data |}];
       prescriptions :=
         prescriptions db
         ++ [{| r_id := next_prescription_id db;
                r_patient_id := Some (next_patient_id db);
                ai_summary := out; treatment_options := out;
                medication_recommendations := out |}];
       next_patient_id := np; next_prescription_id := nr |}
    (JInt (next_patient_id db))
  = [{| row_name := name data; row_age := age data;
        row_allergies := allergies data;
        row_medical_history := medical_history data;
        row_symptoms := symptoms data;
        row_ai_summary := out; row_treatment_options := out;
        row_medication_recommendations := out |}].
Proof.
  intros Hk [Kp Kr]. unfold select_joined. cbn [patients prescriptions].
  rewrite flat_map_app, flat_map_none.
  - cbn [flat_map app p_id]. rewrite Hk, Z.eqb_refl.
    rewrite filter_app, filter_none.
    + cbn. unfold references. cbn. now rewrite Z.eqb_refl.
    + intros r Hr. unfold references.
      destruct (r_patient_id r) as [k|] eqn:E; [|reflexivity].
      apply Z.eqb_neq. pose proof (Kr r k Hr E). lia.
  - intros p Hp. rewrite Hk.
    assert (E : (next_patient_id db =? p_id p) = false).
    { apply Z.eqb_neq. pose proof (Kp p Hp). lia. }
    now rewrite E.
Qed.

(** Intake, then consult: the patient that a successful /submit stored can
    be consulted under the identifier /submit returned, and the prompt of
    that consult is built from the submitted fields and the stored answer
    of the model.  The store compares integer keys as integers, and the
    counter has not handed out 0. *)
Theorem submitted_patient_can_be_consulted (w1 w2 : World) (db : Store)
    (data : PatientInput) (body message : json) (st1 : State) :
  (forall n id, sql_key_eq (JInt n) id = (n =? id)) ->
  keys_below_counters db ->
  next_patient_id db <> 0 ->
  submit_patient w1 data (init db) = (Return body, st1) ->
  truthy message = true ->
  connect_error w2 = None ->
  (forall s, db_fault w2 s = None) ->
  exists ai_output,
    model_outcome w1 (intake_prompt data) = Return ai_output
    /\ body = JDict [(lit "message",
                      JStr (lit "Patient and AI-powered prescription saved."));
                     (lit "patient_id", JInt (next_patient_id db))]
    /\ posts (trace (snd (chatbot_query w2
                            [(lit "patient_id", JInt (next_patient_id db));
                             (lit "message", message)]
                            (init (store st1)))))
       = [consult_prompt
            {| row_name := name data; row_age := age data;
               row_allergies := allergies data;
               row_medical_history := medical_history data;
               row_symptoms := symptoms data;
               row_ai_summary := ai_output;
               row_treatment_options := ai_output;
               row_medication_recommendations := ai_output |}
            message].
Proof.
  intros Hk K Hz H Ht Hc Hf.
  open_handler H. run H. injection H as <- <-.
  eexists. split; [reflexivity | split; [reflexivity|]].
  cbn [store]. rewrite !app_nil_r.
  match goal with
  | |- context [chatbot_query w2 ?pl (init ?db1)] =>
      destruct (chatbot_query w2 pl (init db1)) as [o st2] eqn:H2
  end.
  unfold chatbot_query in H2.
  change (dict_get [(lit "patient_id", JInt (next_patient_id db));
                    (lit "message", message)] (lit "patient_id"))
    with (JInt (next_patient_id db)) in H2.
  change (dict_get [(lit "patient_id", JInt (next_patient_id db));
                    (lit "message", message)] (lit "message"))
    with message in H2.
  assert (Tp : truthy (JInt (next_patient_id db)) = true).
  { unfold truthy. apply negb_true_iff, Z.eqb_neq. exact Hz. }
  rewrite Tp, Ht in H2.
  open_handler H2. rewrite Hc in H2. cbn in H2. rewrite !Hf in H2. cbn in H2.
  rewrite (select_joined_fresh db data _ _ _ Hk K) in H2. cbn in H2.
  rewrite generate_ai_response_run in H2.
  destruct (model_outcome w2 _); cbn in H2; injection H2 as <- <-;
    reflexivity.
Qed.

(** A failure after the second commit: when closing the cursor fails,
    /submit answers 500 although both rows are stored for good, and the
    connection stays open. *)
Theorem late_failure_keeps_both_rows (w : World) (db : Store)
    (data : PatientInput) (ai_output : str) (e : exn) :
  connect_error w = None ->
  db_fault w OpenCursor = None ->
  db_fault w InsertPatient = None ->
  db_fault w CommitPatient = None ->
  db_fault w InsertPrescription = None ->
  db_fault w CommitPrescription = None ->
  db_fault w CloseCursor = Some e ->
  model_outcome w (intake_prompt data) = Return ai_output ->
  fst (submit_patient w data (init db)) = Raise (HTTPException 500 (str_exn e))
  /\ patients (store (snd (submit_patient w data (init db))))
     = patients db ++ [{| p_id := next_patient_id db; p_data := data |}]
  /\ prescriptions (store (snd (submit_patient w data (init db))))
     = prescriptions db
       ++ [{| r_id := next_prescription_id db;
              r_patient_id := Some (next_patient_id db);
              ai_summary := ai_output;
              treatment_options := ai_output;
              medication_recommendations := ai_output |}]
  /\ conn (snd (submit_patient w data (init db))) <> None.
Proof.
  intros Hc H1 H2 H3 H4 H5 H6 Hm.
  destruct (submit_patient w data (init db)) as [o st'] eqn:H.
  open_handler H. rewrite Hc, H1, H2, H3, H4, H5, H6 in H. cbn in H.
  rewrite generate_ai_response_run, Hm in H. cbn in H.
  injection H as <- <-. cbn. rewrite !app_nil_r.
  repeat split; discriminate.
Qed.

(** /submit does not look for a patient it already has: the same payload
    submitted twice with success gives two patient rows under consecutive
    identifiers, each with its own prescription. *)
Theorem resubmission_stores_a_second_patient (w1 w2 : World) (db : Store)
    (data : PatientInput) (body1 body2 : json) (st1 st2 : State) :
  submit_patient w1 data (init db) = (Return body1, st1) ->
  submit_patient w2 data (init (store st1)) = (Return body2, st2) ->
  patients (store st2)
  = patients db
    ++ [{| p_id := next_patient_id db; p_data := data |};
        {| p_id := next_patient_id db + 1; p_data := data |}]
  /\ map r_patient_id (prescriptions (store st2))
     = map r_patient_id (prescriptions db)
       ++ [Some (next_patient_id db); Some (next_patient_id db + 1)]
  /\ body1 = JDict [(lit "message",
                     JStr (lit "Patient and AI-powered prescription saved."));
                    (lit "patient_id", JInt (next_patient_id db))]
  /\ body2 = JDict [(lit "message",
                     JStr (lit "Patient and AI-powered prescription saved."));
                    (lit "patient_id", JInt (next_patient_id db + 1))].
Proof.
  intros H1 H2.
  open_handler H1. run H1. injection H1 as <- <-.
  open_handler H2. run H2. injection H2 as <- <-.
  cbn. rewrite !app_nil_r, <- !app_assoc, !map_app. cbn.
  repeat split.
Qed.

(* ================================================================== *)
(** * The store probe *)
(* ================================================================== *)

Ltac open_probe H :=
  unfold test_db, try_except, get_connection, mysql_connect, cursor,
    execute_select_database, fetch_database_row, first_column, cursor_close,
    conn_close, db_call, lift, raise, init, log in H;
  cbn in H.

Ltac probe_step H :=
  match type of H with
  | context [match connect_error ?w with _ => _ end] =>
      destruct (connect_error w) as [[]|] eqn:?
  | context [match db_fault ?w ?s with _ => _ end] =>
      destruct (db_fault w s) eqn:?
  | context [match select_database_fault ?pr with _ => _ end] =>
      destruct (select_database_fault pr) eqn:?
  | context [match database_row ?pr with _ => _ end] =>
      destruct (database_row pr) as [[|? ?]|] eqn:?
  end.

Ltac run_probe H := repeat (probe_step H; cbn in H).

(** /test-db never fails: whatever is raised inside it comes back as a
    normal answer with the printed exception under "error"; otherwise the
    answer holds a "message".  The tables are never touched. *)
Theorem test_db_always_answers (w : World) (pr : Probe) (db : Store) :
  ((exists text, fst (test_db w pr (init db))
                 = Return (JDict [(lit "message", JStr text)]))
   \/ (exists text, fst (test_db w pr (init db))
                    = Return (JDict [(lit "error", JStr text)])))
  /\ store (snd (test_db w pr (init db))) = db.
Proof.
  destruct (test_db w pr (init db)) as [o st'] eqn:H.
  open_probe H. destruct db.
  run_probe H; injection H as <- <-; cbn; eauto.
Qed.

(** /test-db releases the connection it got exactly when it succeeds: once
    connected, an answer with "message" comes with the connection closed,
    an answer with "error" with the connection still open. *)
Theorem test_db_releases_only_on_success (w : World) (pr : Probe)
    (db : Store) :
  connect_error w = None ->
  (exists text, fst (test_db w pr (init db))
                = Return (JDict [(lit "message", JStr text)])
                /\ conn (snd (test_db w pr (init db))) = None)
  \/ (exists text, fst (test_db w pr (init db))
                   = Return (JDict [(lit "error", JStr text)])
                   /\ conn (snd (test_db w pr (init db))) <> None).
Proof.
  intros Hc.
  destruct (test_db w pr (init db)) as [o st'] eqn:H.
  open_probe H. rewrite Hc in H. cbn in H.
  run_probe H; injection H as <- <-; cbn;
    first [ left; eexists; split; reflexivity
          | right; eexists; split; [reflexivity | discriminate] ].
Qed.

(** /test-db on a store that cannot be reached: the 500 that
    [get_connection] raises is caught and printed, so the answer is a
    normal one whose "error" starts with "500: ". *)
Theorem test_db_reports_unreachable_store (w : World) (pr : Probe)
    (db : Store) (m : str) :
  connect_error w = Some (MySQLError m) ->
  test_db w pr (init db)
  = (Return (JDict [(lit "error",
                     JStr (lit "500: Database connection failed: " ++ m))]),
     log EvConnect (init db)).
Proof.
  intros Hc.
  destruct (test_db w pr (init db)) as [o st'] eqn:H.
  open_probe H. rewrite Hc in H. cbn in H. now injection H as <- <-.
Qed.

(** /test-db on a healthy store names the current database, printing what
    the first column of the row holds: "None" when there is no current
    database. *)
Theorem test_db_names_database (w : World) (pr : Probe) (db : Store)
    (v : json) (rest : list json) :
  connect_error w = None ->
  (forall s, db_fault w s = None) ->
  select_database_fault pr = None ->
  database_row pr = Some (v :: rest) ->
  fst (test_db w pr (init db))
  = Return (JDict [(lit "message",
                    JStr (lit "Connected to database: " ++ py_str v))])
  /\ conn (snd (test_db w pr (init db))) = None.
Proof.
  intros Hc Hf Hs Hr.
  destruct (test_db w pr (init db)) as [o st'] eqn:H.
  open_probe H. rewrite Hc in H. cbn in H.
  rewrite !Hf, Hs, Hr in H. cbn in H.
  now injection H as <- <-.
Qed.

End Service.

(* ================================================================== *)
(** * The theorems at sample requests *)
(* ================================================================== *)

(** The service under the sample runtime of [Sample]. *)
Local Abbreviation generate' :=
  (generate_ai_response Sample.repr_float Sample.repr_str).
Local Abbreviation outcome' :=
  (model_outcome Sample.repr_float Sample.repr_str).
Local Abbreviation submit' :=
  (submit_patient Sample.repr_float Sample.repr_str Sample.key_eq).
Local Abbreviation chatbot' :=
  (chatbot_query Sample.repr_float Sample.repr_str Sample.key_eq).
Local Abbreviation select' := (select_joined Sample.key_eq).

(** C4 as the claim words it fails: the text "Role: RESPONSE" holds no
    "Assistant:" marker, so the client returns it whole. *)
Lemma role_prefix_is_kept :
  fst (generate' (Sample.answering (Sample.generated "Role: RESPONSE"))
         (lit "hello") (init Sample.empty_db))
  = Return (lit "Role: RESPONSE")
  /\ fst (generate' (Sample.answering (Sample.generated "Role: RESPONSE"))
            (lit "hello") (init Sample.empty_db))
     <> Return (lit "RESPONSE").
Proof. split; [reflexivity | discriminate]. Qed.

(** "Assistant: RESPONSE" gives "RESPONSE". *)
Lemma assistant_marker_stripped_witness :
  http_post (Sample.answering (Sample.generated "Assistant: RESPONSE"))
    (lit "hello")
  = inr (JList [JDict [(lit "generated_text",
                        JStr ([] ++ lit "Assistant:" ++ lit " RESPONSE"))]])
  /\ lookup (lit "generated_text")
       [(lit "generated_text",
         JStr ([] ++ lit "Assistant:" ++ lit " RESPONSE"))]
     = Some (JStr ([] ++ lit "Assistant:" ++ lit " RESPONSE"))
  /\ occurs (lit "Assistant:") (lit " RESPONSE") = false
  /\ fst (generate' (Sample.answering (Sample.generated "Assistant: RESPONSE"))
            (lit "hello") (init Sample.empty_db))
     = Return (lit "RESPONSE").
Proof.
  split; [reflexivity | split; [reflexivity | split; [reflexivity|]]].
  exact (assistant_marker_stripped Sample.repr_float Sample.repr_str
           (Sample.answering (Sample.generated "Assistant: RESPONSE"))
           (lit "hello") (init Sample.empty_db)
           [(lit "generated_text",
             JStr ([] ++ lit "Assistant:" ++ lit " RESPONSE"))]
           [] [] (lit " RESPONSE") eq_refl eq_refl eq_refl).
Defined.

(** Whatever precedes the marker goes with it. *)
Example marker_after_prefix_sample :
  fst (generate' (Sample.answering
                    (Sample.generated "User: hi Assistant:  RESPONSE  "))
         (lit "hello") (init Sample.empty_db))
  = Return (lit "RESPONSE").
Proof. reflexivity. Qed.

(** An overloaded endpoint gives the model error with its message. *)
Lemma error_field_is_model_error_witness :
  http_post (Sample.answering Sample.overloaded) (lit "hello")
  = inr (JDict [(lit "error", JStr (lit "Model is overloaded"))])
  /\ lookup (lit "error") [(lit "error", JStr (lit "Model is overloaded"))]
     = Some (JStr (lit "Model is overloaded"))
  /\ fst (generate' (Sample.answering Sample.overloaded) (lit "hello")
            (init Sample.empty_db))
     = Raise (RuntimeError (lit "Model error: Model is overloaded"))
  /\ error_kind (RuntimeError (lit "Model error: Model is overloaded"))
     = Some ModelError.
Proof.
  split; [reflexivity | split; [reflexivity|]].
  exact (error_field_is_model_error Sample.repr_float Sample.repr_str
           (Sample.answering Sample.overloaded) (lit "hello")
           (init Sample.empty_db)
           [(lit "error", JStr (lit "Model is overloaded"))]
           (JStr (lit "Model is overloaded")) eq_refl eq_refl).
Defined.

(** The body [[]] gives [IndexError]. *)
Lemma empty_sequence_escapes_classification_witness :
  http_post (Sample.answering (JList [])) (lit "hello") = inr (JList [])
  /\ fst (generate' (Sample.answering (JList [])) (lit "hello")
            (init Sample.empty_db))
     = Raise (IndexError (lit "list index out of range"))
  /\ error_kind (IndexError (lit "list index out of range")) = None.
Proof.
  split; [reflexivity|].
  exact (empty_sequence_escapes_classification Sample.repr_float
           Sample.repr_str (Sample.answering (JList [])) (lit "hello")
           (init Sample.empty_db) eq_refl).
Defined.

(** So does a list that starts with a number. *)
Example number_first_escapes_classification :
  fst (generate' (Sample.answering (JList [JInt 1])) (lit "hello")
         (init Sample.empty_db))
  = Raise (TypeError (lit "argument of type 'int' is not iterable")).
Proof. reflexivity. Qed.

(** Ann's intake on the empty store leaves the store [Sample.ann_db]. *)
Lemma submit_success_rows_witness :
  submit' (Sample.answering (Sample.generated "Assistant: RESPONSE"))
    Sample.ann (init Sample.empty_db)
  = (Return (JDict [(lit "message",
                     JStr (lit "Patient and AI-powered prescription saved."));
                    (lit "patient_id", JInt 1)]),
     snd (submit' (Sample.answering (Sample.generated "Assistant: RESPONSE"))
            Sample.ann (init Sample.empty_db)))
  /\ store (snd (submit' (Sample.answering
                            (Sample.generated "Assistant: RESPONSE"))
                   Sample.ann (init Sample.empty_db)))
     = Sample.ann_db
  /\ exists ai_output : str,
       outcome' (Sample.answering (Sample.generated "Assistant: RESPONSE"))
         (intake_prompt Sample.ann) = Return ai_output /\
       patients (store (snd (submit' (Sample.answering
                                        (Sample.generated "Assistant: RESPONSE"))
                               Sample.ann (init Sample.empty_db))))
       = patients Sample.empty_db
         ++ [{| p_id := next_patient_id Sample.empty_db;
                p_data := Sample.ann |}] /\
       prescriptions (store (snd (submit' (Sample.answering
                                   (Sample.generated "Assistant: RESPONSE"))
                                    Sample.ann (init Sample.empty_db))))
       = prescriptions Sample.empty_db
         ++ [{| r_id := next_prescription_id Sample.empty_db;
                r_patient_id := Some (next_patient_id Sample.empty_db);
                ai_summary := ai_output;
                treatment_options := ai_output;
                medication_recommendations := ai_output |}] /\
       JDict [(lit "message",
               JStr (lit "Patient and AI-powered prescription saved."));
              (lit "patient_id", JInt 1)]
       = JDict [(lit "message",
                 JStr (lit "Patient and AI-powered prescription saved."));
                (lit "patient_id", JInt (next_patient_id Sample.empty_db))].
Proof.
  split; [reflexivity | split; [reflexivity|]].
  exact (submit_success_rows Sample.repr_float Sample.repr_str Sample.key_eq
           (Sample.answering (Sample.generated "Assistant: RESPONSE"))
           Sample.empty_db Sample.ann _ _ eq_refl).
Defined.

(** Bea's intake with a failing second INSERT leaves her row and no
    prescription for it. *)
Lemma failed_prescription_leaves_orphan_witness :
  keys_below_counters Sample.ann_db
  /\ connect_error Sample.insert_fails = None
  /\ db_fault Sample.insert_fails OpenCursor = None
  /\ db_fault Sample.insert_fails InsertPatient = None
  /\ db_fault Sample.insert_fails CommitPatient = None
  /\ ((exists e, outcome' Sample.insert_fails (intake_prompt Sample.bea)
                 = Raise e)
      \/ (exists e, db_fault Sample.insert_fails InsertPrescription = Some e)
      \/ (exists e, db_fault Sample.insert_fails CommitPrescription = Some e))
  /\ exists detail st',
       submit' Sample.insert_fails Sample.bea (init Sample.ann_db)
       = (Raise (HTTPException 500 detail), st') /\
       patients (store st')
       = patients Sample.ann_db
         ++ [{| p_id := next_patient_id Sample.ann_db;
                p_data := Sample.bea |}] /\
       prescriptions (store st') = prescriptions Sample.ann_db /\
       (forall p, In p (patients Sample.ann_db) ->
                  p_id p <> next_patient_id Sample.ann_db) /\
       (forall r, In r (prescriptions (store st')) ->
                  r_patient_id r <> Some (next_patient_id Sample.ann_db)).
Proof.
  assert (K : keys_below_counters Sample.ann_db).
  { split.
    - intros p [<- | []]. simpl. lia.
    - intros r k [<- | []]. simpl. intros [= <-]. lia. }
  assert (F : (exists e, outcome' Sample.insert_fails (intake_prompt Sample.bea)
                         = Raise e)
              \/ (exists e, db_fault Sample.insert_fails InsertPrescription
                            = Some e)
              \/ (exists e, db_fault Sample.insert_fails CommitPrescription
                            = Some e)).
  { right. left. eexists. reflexivity. }
  split; [exact K|]. do 4 (split; [reflexivity|]). split; [exact F|].
  exact (failed_prescription_leaves_orphan Sample.repr_float Sample.repr_str
           Sample.key_eq Sample.insert_fails Sample.ann_db Sample.bea
           K eq_refl eq_refl eq_refl eq_refl F).
Defined.

(** Ann's intake against an overloaded endpoint leaves the connection
    open. *)
Lemma model_failure_leaks_connection_witness :
  connect_error (Sample.answering Sample.overloaded) = None
  /\ db_fault (Sample.answering Sample.overloaded) OpenCursor = None
  /\ db_fault (Sample.answering Sample.overloaded) InsertPatient = None
  /\ db_fault (Sample.answering Sample.overloaded) CommitPatient = None
  /\ outcome' (Sample.answering Sample.overloaded) (intake_prompt Sample.ann)
     = Raise (RuntimeError (lit "Model error: Model is overloaded"))
  /\ fst (submit' (Sample.answering Sample.overloaded) Sample.ann
            (init Sample.empty_db))
     = Raise (HTTPException 500 (lit "Model error: Model is overloaded"))
  /\ conn (snd (submit' (Sample.answering Sample.overloaded) Sample.ann
                  (init Sample.empty_db)))
     <> None.
Proof.
  do 5 (split; [reflexivity|]).
  exact (model_failure_leaks_connection Sample.repr_float Sample.repr_str
           Sample.key_eq (Sample.answering Sample.overloaded) Sample.empty_db
           Sample.ann (RuntimeError (lit "Model error: Model is overloaded"))
           eq_refl eq_refl eq_refl eq_refl eq_refl).
Defined.

(** The same leak on /chatbot, at a lookup that fails. *)
Example lookup_failure_leaks_connection_sample :
  fst (chatbot' Sample.select_fails (Sample.ask 1) (init Sample.ann_db))
  = Raise (HTTPException 500 (lit "Lost connection"))
  /\ conn (snd (chatbot' Sample.select_fails (Sample.ask 1)
                  (init Sample.ann_db)))
     = Some fresh_conn.
Proof. split; reflexivity. Qed.

(** Asking about patient 7 on the empty store. *)
Lemma no_match_is_never_404_witness :
  select' Sample.empty_db (dict_get (Sample.ask 7) (lit "patient_id")) = []
  /\ posts (trace (snd (chatbot' (Sample.answering (Sample.generated "fine"))
                          (Sample.ask 7) (init Sample.empty_db))))
     = []
  /\ (status_of (fst (chatbot' (Sample.answering (Sample.generated "fine"))
                        (Sample.ask 7) (init Sample.empty_db))) = 400
      \/ status_of (fst (chatbot' (Sample.answering (Sample.generated "fine"))
                           (Sample.ask 7) (init Sample.empty_db))) = 500).
Proof.
  split; [reflexivity|].
  exact (no_match_is_never_404 Sample.repr_float Sample.repr_str Sample.key_eq
           (Sample.answering (Sample.generated "fine")) Sample.empty_db
           (Sample.ask 7) eq_refl).
Defined.

(** What the client gets for an unknown identifier when nothing fails. *)
Example not_found_sample :
  fst (chatbot' (Sample.answering (Sample.generated "fine")) (Sample.ask 7)
         (init Sample.empty_db))
  = Raise (HTTPException 500 (lit "404: Patient not found."))
  /\ status_of (fst (chatbot' (Sample.answering (Sample.generated "fine"))
                       (Sample.ask 7) (init Sample.empty_db)))
     = 500.
Proof. split; reflexivity. Qed.

(** A payload without [message]. *)
Lemma missing_field_is_400_witness :
  (lookup (lit "patient_id") [(lit "patient_id", JInt 1)] = None
   \/ lookup (lit "message") [(lit "patient_id", JInt 1)] = None)
  /\ chatbot' (Sample.answering (Sample.generated "fine"))
       [(lit "patient_id", JInt 1)] (init Sample.ann_db)
     = (Raise missing_field, init Sample.ann_db)
  /\ status_of (fst (chatbot' (Sample.answering (Sample.generated "fine"))
                       [(lit "patient_id", JInt 1)] (init Sample.ann_db)))
     = 400
  /\ lookups (trace (snd (chatbot' (Sample.answering (Sample.generated "fine"))
                            [(lit "patient_id", JInt 1)]
                            (init Sample.ann_db))))
     = []
  /\ posts (trace (snd (chatbot' (Sample.answering (Sample.generated "fine"))
                          [(lit "patient_id", JInt 1)]
                          (init Sample.ann_db))))
     = [].
Proof.
  assert (A : lookup (lit "patient_id") [(lit "patient_id", JInt 1)] = None
              \/ lookup (lit "message") [(lit "patient_id", JInt 1)] = None).
  { right. reflexivity. }
  split; [exact A|].
  exact (missing_field_is_400 Sample.repr_float Sample.repr_str Sample.key_eq
           (Sample.answering (Sample.generated "fine")) Sample.ann_db
           [(lit "patient_id", JInt 1)] A).
Defined.

(** A payload with identifier 0. *)
Lemma falsy_field_is_400_witness :
  (lookup (lit "patient_id") (Sample.ask 0) = Some (JInt 0)
   \/ lookup (lit "message") (Sample.ask 0) = Some (JInt 0))
  /\ truthy (JInt 0) = false
  /\ chatbot' (Sample.answering (Sample.generated "fine")) (Sample.ask 0)
       (init Sample.ann_db)
     = (Raise missing_field, init Sample.ann_db)
  /\ chatbot' (Sample.answering (Sample.generated "fine")) (Sample.ask 0)
       (init Sample.ann_db)
     = chatbot' (Sample.answering (Sample.generated "fine")) []
         (init Sample.ann_db)
  /\ (lookup (lit "patient_id") (Sample.ask 0) = Some (JInt 0) ->
      forall reply st',
        chatbot' (Sample.answering (Sample.generated "fine")) (Sample.ask 0)
          (init Sample.ann_db)
        <> (Return reply, st')).
Proof.
  assert (A : lookup (lit "patient_id") (Sample.ask 0) = Some (JInt 0)
              \/ lookup (lit "message") (Sample.ask 0) = Some (JInt 0)).
  { left. reflexivity. }
  split; [exact A | split; [reflexivity|]].
  exact (falsy_field_is_400 Sample.repr_float Sample.repr_str Sample.key_eq
           (Sample.answering (Sample.generated "fine")) Sample.ann_db
           (Sample.ask 0) (JInt 0) A eq_refl).
Defined.

(** Ann and Bea, who differ in name and weight only, in two different
    worlds. *)
Lemma prompts_depend_on_fields_only_witness :
  age Sample.ann = age Sample.bea
  /\ symptoms Sample.ann = symptoms Sample.bea
  /\ medical_history Sample.ann = medical_history Sample.bea
  /\ allergies Sample.ann = allergies Sample.bea
  /\ dict_get (Sample.ask 1) (lit "message")
     = dict_get (Sample.ask 1) (lit "message")
  /\ hd_error (select' Sample.ann_db (dict_get (Sample.ask 1) (lit "patient_id")))
     = hd_error (select' Sample.ann_db (dict_get (Sample.ask 1) (lit "patient_id")))
  /\ (forall p1 p2,
        In p1 (posts (trace (snd (submit' (Sample.answering Sample.overloaded)
                                    Sample.ann (init Sample.ann_db))))) ->
        In p2 (posts (trace (snd (submit' (Sample.answering
                                             (Sample.generated "fine"))
                                    Sample.bea (init Sample.ann_db))))) ->
        p1 = p2)
  /\ (forall p1 p2,
        In p1 (posts (trace (snd (chatbot' (Sample.answering Sample.overloaded)
                                    (Sample.ask 1) (init Sample.ann_db))))) ->
        In p2 (posts (trace (snd (chatbot' (Sample.answering
                                              (Sample.generated "fine"))
                                    (Sample.ask 1) (init Sample.ann_db))))) ->
        p1 = p2).
Proof.
  do 6 (split; [reflexivity|]).
  exact (prompts_depend_on_fields_only Sample.repr_float Sample.repr_str
           Sample.key_eq
           (Sample.answering Sample.overloaded)
           (Sample.answering (Sample.generated "fine"))
           Sample.ann_db Sample.ann_db Sample.ann Sample.bea
           (Sample.ask 1) (Sample.ask 1)
           eq_refl eq_refl eq_refl eq_refl eq_refl eq_refl).
Defined.

(** The two sample intake runs above do send a prompt, the same one. *)
Example sample_prompts_sent :
  posts (trace (snd (submit' (Sample.answering Sample.overloaded)
                       Sample.ann (init Sample.ann_db))))
  = [intake_prompt Sample.ann]
  /\ posts (trace (snd (submit' (Sample.answering (Sample.generated "fine"))
                          Sample.bea (init Sample.ann_db))))
     = [intake_prompt Sample.ann].
Proof. split; reflexivity. Qed.

(* ================================================================== *)
(** * The further properties at sample requests *)
(* ================================================================== *)

Local Abbreviation probe' := (test_db Sample.repr_float Sample.repr_str).
Local Abbreviation fine := (Sample.answering (Sample.generated "fine")).
Local Abbreviation saved :=
  (JDict [(lit "message",
           JStr (lit "Patient and AI-powered prescription saved."));
          (lit "patient_id", JInt 1)]).

(** An endpoint that refuses the connection. *)
Lemma transport_failure_is_wrapped_witness :
  http_post MoreSamples.offline (lit "hello")
  = inl (OtherException (lit "Connection refused"))
  /\ generate' MoreSamples.offline (lit "hello") (init Sample.empty_db)
     = (Raise (RuntimeError
                 (lit "Failed to contact Hugging Face API: Connection refused")),
        log (EvPost (lit "hello")) (init Sample.empty_db))
  /\ error_kind (RuntimeError
                   (lit "Failed to contact Hugging Face API: Connection refused"))
     = Some TransportError.
Proof.
  split; [reflexivity|].
  exact (transport_failure_is_wrapped Sample.repr_float Sample.repr_str
           MoreSamples.offline (lit "hello") (init Sample.empty_db)
           (OtherException (lit "Connection refused")) eq_refl).
Defined.

(** A generated text with a marker and white space around the answer. *)
Lemma returned_text_is_clean_witness :
  fst (generate' (Sample.answering
                    (Sample.generated "User: hi Assistant:  RESPONSE  "))
         (lit "hello") (init Sample.empty_db))
  = Return (lit "RESPONSE")
  /\ strip (lit "RESPONSE") = lit "RESPONSE"
  /\ occurs (lit "Assistant:") (lit "RESPONSE") = false.
Proof.
  split; [reflexivity|].
  exact (returned_text_is_clean Sample.repr_float Sample.repr_str
           (Sample.answering
              (Sample.generated "User: hi Assistant:  RESPONSE  "))
           (lit "hello") (init Sample.empty_db) (lit "RESPONSE") eq_refl).
Defined.

(** An error object inside a list is not taken for a model error. *)
Lemma unexpected_shapes_are_classified_witness :
  http_post (Sample.answering MoreSamples.listed_error) (lit "hello")
  = inr (JList [JDict [(lit "error", JStr (lit "Model is overloaded"))]])
  /\ lookup (lit "generated_text")
       [(lit "error", JStr (lit "Model is overloaded"))] = None
  /\ fst (generate' (Sample.answering MoreSamples.listed_error) (lit "hello")
            (init Sample.empty_db))
     = Raise (RuntimeError (lit "Unexpected API response format."))
  /\ error_kind (RuntimeError (lit "Unexpected API response format."))
     = Some UnexpectedResponseShape.
Proof.
  split; [reflexivity | split; [reflexivity|]].
  exact (unexpected_shapes_are_classified Sample.repr_float Sample.repr_str
           (Sample.answering MoreSamples.listed_error) (lit "hello")
           (init Sample.empty_db)
           (JList [JDict [(lit "error", JStr (lit "Model is overloaded"))]])
           eq_refl eq_refl).
Defined.

(** A generated text that is null. *)
Lemma text_of_wrong_type_escapes_witness :
  http_post (Sample.answering MoreSamples.null_text) (lit "hello")
  = inr (JList [JDict [(lit "generated_text", JNull)]])
  /\ lookup (lit "generated_text") [(lit "generated_text", JNull)] = Some JNull
  /\ True
  /\ fst (generate' (Sample.answering MoreSamples.null_text) (lit "hello")
            (init Sample.empty_db))
     = Raise (AttributeError
                (lit "'NoneType' object has no attribute 'split'"))
  /\ error_kind (AttributeError
                   (lit "'NoneType' object has no attribute 'split'"))
     = None.
Proof.
  split; [reflexivity | split; [reflexivity | split; [exact I|]]].
  exact (text_of_wrong_type_escapes Sample.repr_float Sample.repr_str
           (Sample.answering MoreSamples.null_text) (lit "hello")
           (init Sample.empty_db) [(lit "generated_text", JNull)] [] JNull
           eq_refl eq_refl I).
Defined.

(** Bea's intake on the store that holds Ann. *)
Lemma submit_keeps_keys_below_counters_witness :
  keys_below_counters Sample.ann_db
  /\ keys_below_counters
       (store (snd (submit' fine Sample.bea (init Sample.ann_db)))).
Proof.
  assert (K : keys_below_counters Sample.ann_db).
  { split.
    - intros p [<- | []]. simpl. lia.
    - intros r k [<- | []]. simpl. intros [= <-]. lia. }
  split; [exact K|].
  exact (submit_keeps_keys_below_counters Sample.repr_float Sample.repr_str
           Sample.key_eq fine Sample.ann_db Sample.bea K).
Defined.

Lemma submit_keeps_references_resolved_witness :
  references_resolve Sample.ann_db
  /\ references_resolve
       (store (snd (submit' fine Sample.bea (init Sample.ann_db)))).
Proof.
  assert (R : references_resolve Sample.ann_db).
  { intros r k [<- | []]. simpl. intros [= <-].
    eexists. split; [left; reflexivity | reflexivity]. }
  split; [exact R|].
  exact (submit_keeps_references_resolved Sample.repr_float Sample.repr_str
           Sample.key_eq fine Sample.ann_db Sample.bea R).
Defined.

(** Ann's intake in a world where nothing fails. *)
Lemma submit_succeeds_witness :
  connect_error fine = None
  /\ (forall s, db_fault fine s = None)
  /\ outcome' fine (intake_prompt Sample.ann) = Return (lit "fine")
  /\ fst (submit' fine Sample.ann (init Sample.empty_db)) = Return saved.
Proof.
  split; [reflexivity | split; [reflexivity | split; [reflexivity|]]].
  exact (submit_succeeds Sample.repr_float Sample.repr_str Sample.key_eq
           fine Sample.empty_db Sample.ann (lit "fine")
           eq_refl (fun s => eq_refl) eq_refl).
Defined.

(** Asking about Ann. *)
Lemma consult_replies_with_model_output_witness :
  truthy (dict_get (Sample.ask 1) (lit "patient_id")) = true
  /\ truthy (dict_get (Sample.ask 1) (lit "message")) = true
  /\ connect_error fine = None
  /\ (forall s, db_fault fine s = None)
  /\ hd_error (select' Sample.ann_db (dict_get (Sample.ask 1) (lit "patient_id")))
     = Some (join_row {| p_id := 1; p_data := Sample.ann |}
               {| r_id := 1; r_patient_id := Some 1;
                  ai_summary := lit "RESPONSE";
                  treatment_options := lit "RESPONSE";
                  medication_recommendations := lit "RESPONSE" |})
  /\ outcome' fine
       (consult_prompt Sample.repr_float Sample.repr_str
          (join_row {| p_id := 1; p_data := Sample.ann |}
             {| r_id := 1; r_patient_id := Some 1;
                ai_summary := lit "RESPONSE";
                treatment_options := lit "RESPONSE";
                medication_recommendations := lit "RESPONSE" |})
          (dict_get (Sample.ask 1) (lit "message")))
     = Return (lit "fine")
  /\ fst (chatbot' fine (Sample.ask 1) (init Sample.ann_db))
     = Return (JDict [(lit "reply", JStr (lit "fine"))])
  /\ store (snd (chatbot' fine (Sample.ask 1) (init Sample.ann_db)))
     = Sample.ann_db
  /\ conn (snd (chatbot' fine (Sample.ask 1) (init Sample.ann_db))) = None.
Proof.
  do 6 (split; [reflexivity|]).
  exact (consult_replies_with_model_output Sample.repr_float Sample.repr_str
           Sample.key_eq fine Sample.ann_db (Sample.ask 1) _ (lit "fine")
           eq_refl eq_refl eq_refl (fun s => eq_refl) eq_refl eq_refl).
Defined.

(** Ann is taken in on the empty store and then asked about. *)
Lemma submitted_patient_can_be_consulted_witness :
  (forall n id, Sample.key_eq (JInt n) id = (n =? id))
  /\ keys_below_counters Sample.empty_db
  /\ next_patient_id Sample.empty_db <> 0
  /\ submit' (Sample.answering (Sample.generated "Assistant: RESPONSE"))
       Sample.ann (init Sample.empty_db)
     = (Return saved,
        snd (submit' (Sample.answering (Sample.generated "Assistant: RESPONSE"))
               Sample.ann (init Sample.empty_db)))
  /\ truthy (JStr (lit "hi")) = true
  /\ connect_error fine = None
  /\ (forall s, db_fault fine s = None)
  /\ exists ai_output,
       outcome' (Sample.answering (Sample.generated "Assistant: RESPONSE"))
         (intake_prompt Sample.ann) = Return ai_output
       /\ saved
          = JDict [(lit "message",
                    JStr (lit "Patient and AI-powered prescription saved."));
                   (lit "patient_id", JInt (next_patient_id Sample.empty_db))]
       /\ posts (trace (snd (chatbot' fine
                               [(lit "patient_id",
                                 JInt (next_patient_id Sample.empty_db));
                                (lit "message", JStr (lit "hi"))]
                               (init (store (snd (submit'
                                  (Sample.answering
                                     (Sample.generated "Assistant: RESPONSE"))
                                  Sample.ann (init Sample.empty_db))))))))
          = [consult_prompt Sample.repr_float Sample.repr_str
               {| row_name := name Sample.ann; row_age := age Sample.ann;
                  row_allergies := allergies Sample.ann;
                  row_medical_history := medical_history Sample.ann;
                  row_symptoms := symptoms Sample.ann;
                  row_ai_summary := ai_output;
                  row_treatment_options := ai_output;
                  row_medication_recommendations := ai_output |}
               (JStr (lit "hi"))].
Proof.
  assert (E : forall n id, Sample.key_eq (JInt n) id = (n =? id))
    by reflexivity.
  assert (K : keys_below_counters Sample.empty_db).
  { split; [intros p [] | intros r k []]. }
  assert (Z1 : next_patient_id Sample.empty_db <> 0) by discriminate.
  split; [exact E | split; [exact K | split; [exact Z1|]]].
  do 4 (split; [reflexivity|]).
  exact (submitted_patient_can_be_consulted Sample.repr_float Sample.repr_str
           Sample.key_eq
           (Sample.answering (Sample.generated "Assistant: RESPONSE")) fine
           Sample.empty_db Sample.ann saved (JStr (lit "hi")) _
           E K Z1 eq_refl eq_refl eq_refl (fun s => eq_refl)).
Defined.

(** Both handlers on a store that refuses the login. *)
Lemma unreachable_store_is_500_witness :
  connect_error MoreSamples.store_down = Some (MySQLError (lit "Access denied"))
  /\ truthy (dict_get (Sample.ask 1) (lit "patient_id")) = true
  /\ truthy (dict_get (Sample.ask 1) (lit "message")) = true
  /\ submit' MoreSamples.store_down Sample.ann (init Sample.empty_db)
     = (Raise (HTTPException 500
                 (lit "500: Database connection failed: Access denied")),
        log EvConnect (init Sample.empty_db))
  /\ chatbot' MoreSamples.store_down (Sample.ask 1) (init Sample.empty_db)
     = (Raise (HTTPException 500
                 (lit "500: Database connection failed: Access denied")),
        log EvConnect (init Sample.empty_db)).
Proof.
  do 3 (split; [reflexivity|]).
  exact (unreachable_store_is_500 Sample.repr_float Sample.repr_str
           Sample.key_eq MoreSamples.store_down Sample.empty_db Sample.ann
           (Sample.ask 1) (lit "Access denied") eq_refl eq_refl eq_refl).
Defined.

(** The probe in a world where closing the cursor fails: an "error"
    answer, the connection left open. *)
Lemma test_db_releases_only_on_success_witness :
  connect_error MoreSamples.close_fails = None
  /\ ((exists text,
         fst (probe' MoreSamples.close_fails MoreSamples.named
                (init Sample.empty_db))
         = Return (JDict [(lit "message", JStr text)])
         /\ conn (snd (probe' MoreSamples.close_fails MoreSamples.named
                         (init Sample.empty_db))) = None)
      \/ (exists text,
            fst (probe' MoreSamples.close_fails MoreSamples.named
                   (init Sample.empty_db))
            = Return (JDict [(lit "error", JStr text)])
            /\ conn (snd (probe' MoreSamples.close_fails MoreSamples.named
                            (init Sample.empty_db))) <> None)).
Proof.
  split; [reflexivity|].
  exact (test_db_releases_only_on_success Sample.repr_float Sample.repr_str
           MoreSamples.close_fails MoreSamples.named Sample.empty_db eq_refl).
Defined.

(** What that run answers. *)
Example test_db_close_fails_sample :
  fst (probe' MoreSamples.close_fails MoreSamples.named (init Sample.empty_db))
  = Return (JDict [(lit "error", JStr (lit "Unread result found"))])
  /\ conn (snd (probe' MoreSamples.close_fails MoreSamples.named
                  (init Sample.empty_db)))
     = Some fresh_conn.
Proof. split; reflexivity. Qed.

(** The probe on a store that refuses the login. *)
Lemma test_db_reports_unreachable_store_witness :
  connect_error MoreSamples.store_down = Some (MySQLError (lit "Access denied"))
  /\ probe' MoreSamples.store_down MoreSamples.named (init Sample.empty_db)
     = (Return (JDict [(lit "error",
                        JStr (lit "500: Database connection failed: Access denied"))]),
        log EvConnect (init Sample.empty_db)).
Proof.
  split; [reflexivity|].
  exact (test_db_reports_unreachable_store Sample.repr_float Sample.repr_str
           MoreSamples.store_down MoreSamples.named Sample.empty_db
           (lit "Access denied") eq_refl).
Defined.

(** The probe on a healthy store. *)
Lemma test_db_names_database_witness :
  connect_error fine = None
  /\ (forall s, db_fault fine s = None)
  /\ select_database_fault MoreSamples.named = None
  /\ database_row MoreSamples.named = Some [JStr (lit "prescription")]
  /\ fst (probe' fine MoreSamples.named (init Sample.empty_db))
     = Return (JDict [(lit "message",
                       JStr (lit "Connected to database: prescription"))])
  /\ conn (snd (probe' fine MoreSamples.named (init Sample.empty_db))) = None.
Proof.
  do 4 (split; [reflexivity|]).
  exact (test_db_names_database Sample.repr_float Sample.repr_str fine
           MoreSamples.named Sample.empty_db (JStr (lit "prescription")) []
           eq_refl (fun s => eq_refl) eq_refl eq_refl).
Defined.

(** Ann's intake in a world where closing the cursor fails. *)
Lemma late_failure_keeps_both_rows_witness :
  connect_error MoreSamples.close_fails = None
  /\ db_fault MoreSamples.close_fails OpenCursor = None
  /\ db_fault MoreSamples.close_fails InsertPatient = None
  /\ db_fault MoreSamples.close_fails CommitPatient = None
  /\ db_fault MoreSamples.close_fails InsertPrescription = None
  /\ db_fault MoreSamples.close_fails CommitPrescription = None
  /\ db_fault MoreSamples.close_fails CloseCursor
     = Some (MySQLError (lit "Unread result found"))
  /\ outcome' MoreSamples.close_fails (intake_prompt Sample.ann)
     = Return (lit "fine")
  /\ fst (submit' MoreSamples.close_fails Sample.ann (init Sample.empty_db))
     = Raise (HTTPException 500 (lit "Unread result found"))
  /\ patients (store (snd (submit' MoreSamples.close_fails Sample.ann
                             (init Sample.empty_db))))
     = patients Sample.empty_db
       ++ [{| p_id := next_patient_id Sample.empty_db; p_data := Sample.ann |}]
  /\ prescriptions (store (snd (submit' MoreSamples.close_fails Sample.ann
                                  (init Sample.empty_db))))
     = prescriptions Sample.empty_db
       ++ [{| r_id := next_prescription_id Sample.empty_db;
              r_patient_id := Some (next_patient_id Sample.empty_db);
              ai_summary := lit "fine";
              treatment_options := lit "fine";
              medication_recommendations := lit "fine" |}]
  /\ conn (snd (submit' MoreSamples.close_fails Sample.ann
                  (init Sample.empty_db)))
     <> None.
Proof.
  do 8 (split; [reflexivity|]).
  exact (late_failure_keeps_both_rows Sample.repr_float Sample.repr_str
           Sample.key_eq MoreSamples.close_fails Sample.empty_db Sample.ann
           (lit "fine") (MySQLError (lit "Unread result found"))
           eq_refl eq_refl eq_refl eq_refl eq_refl eq_refl eq_refl eq_refl).
Defined.

Local Abbreviation once :=
  (snd (submit' fine Sample.ann (init Sample.empty_db))).
Local Abbreviation twice :=
  (snd (submit' fine Sample.ann (init (store once)))).

(** Ann is taken in twice. *)
Lemma resubmission_stores_a_second_patient_witness :
  submit' fine Sample.ann (init Sample.empty_db) = (Return saved, once)
  /\ submit' fine Sample.ann (init (store once))
     = (Return (JDict [(lit "message",
                        JStr (lit "Patient and AI-powered prescription saved."));
                       (lit "patient_id", JInt 2)]),
        twice)
  /\ patients (store twice)
     = patients Sample.empty_db
       ++ [{| p_id := next_patient_id Sample.empty_db; p_data := Sample.ann |};
           {| p_id := next_patient_id Sample.empty_db + 1;
              p_data := Sample.ann |}]
  /\ map r_patient_id (prescriptions (store twice))
     = map r_patient_id (prescriptions Sample.empty_db)
       ++ [Some (next_patient_id Sample.empty_db);
           Some (next_patient_id Sample.empty_db + 1)]
  /\ saved
     = JDict [(lit "message",
               JStr (lit "Patient and AI-powered prescription saved."));
              (lit "patient_id", JInt (next_patient_id Sample.empty_db))]
  /\ JDict [(lit "message",
             JStr (lit "Patient and AI-powered prescription saved."));
            (lit "patient_id", JInt 2)]
     = JDict [(lit "message",
               JStr (lit "Patient and AI-powered prescription saved."));
              (lit "patient_id", JInt (next_patient_id Sample.empty_db + 1))].
Proof.
  assert (H1 : submit' fine Sample.ann (init Sample.empty_db)
               = (Return saved, once))
    by (vm_compute; reflexivity).
  assert (H2 : submit' fine Sample.ann (init (store once))
               = (Return (JDict [(lit "message",
                                  JStr (lit "Patient and AI-powered prescription saved."));
                                 (lit "patient_id", JInt 2)]),
                  twice))
    by (vm_compute; reflexivity).
  split; [exact H1 | split; [exact H2|]].
  exact (resubmission_stores_a_second_patient Sample.repr_float
           Sample.repr_str Sample.key_eq fine fine Sample.empty_db Sample.ann
           saved
           (JDict [(lit "message",
                    JStr (lit "Patient and AI-powered prescription saved."));
                   (lit "patient_id", JInt 2)])
           once twice H1 H2).
Defined.
